(** * NeuraChat: the conversation-state pipeline of [main.py]

    A shallow embedding of the chatbot's state pipeline: the keyword
    sentiment classifier, the respond step, the summarizer and the
    [update_state] node that the single-node workflow runs on every
    line of user input.

    Python values are modelled as follows.
    - [str] is [string]; a character is a code point below 256, and
      [lower] is [str.lower] on that range.
    - a [dict] with string keys is a [gmap string _]; indexing a missing
      key raises [KeyError].
    - [ChatState] instances and [list] objects live in a store and are
      handled through references, because [model_copy()] is a shallow
      copy: the copy and the original share one [messages] list.
    - [ollama.chat] is an external service: a function of the calls made
      so far and of the present request, which raises or returns a
      response. Every request is recorded in a trace. *)

From Stdlib Require Import Ascii NArith.
From stdpp Require Import base strings list gmap fin_maps.

Local Open Scope string_scope.
Local Open Scope list_scope.

(** ** Strings *)

Module PyStr.

(** [str.lower] on one code point below 256: A-Z and the accented
    capitals (other than the multiplication sign) gain 32. *)
Definition lower_char (c : ascii) : ascii :=
  let n := N_of_ascii c in
  if ((65 <=? n) && (n <=? 90))%N then ascii_of_N (n + 32)
  else if ((192 <=? n) && (n <=? 222) && negb (n =? 215))%N
       then ascii_of_N (n + 32)
  else c.

Fixpoint lower (s : string) : string :=
  match s with
  | EmptyString => EmptyString
  | String c r => String (lower_char c) (lower r)
  end.

(** [x in s] for strings: [x] occurs in [s] as a contiguous run. *)
Fixpoint contains (x s : string) : bool :=
  String.prefix x s ||
  match s with
  | EmptyString => false
  | String _ r => contains x r
  end.

(** [sep.join(parts)] *)
Fixpoint join (sep : string) (parts : list string) : string :=
  match parts with
  | [] => ""
  | [p] => p
  | p :: rest => p +:+ sep +:+ join sep rest
  end.

(** The mathematical reading of "occurs as a substring". *)
Definition is_substring (x s : string) : Prop :=
  ∃ pre post, s = pre +:+ x +:+ post.

End PyStr.

(** ** Sentiment analysis *)

Definition negative_words : list string := ["sad"; "depressed"; "anxious"; "upset"].
Definition positive_words : list string := ["happy"; "excited"; "joyful"].

(** [any(word in message.lower() for word in words)] *)
Definition any_word_in (words : list string) (message : string) : bool :=
  existsb (fun word => PyStr.contains word (PyStr.lower message)) words.

Definition analyze_sentiment (message : string) : string :=
  if any_word_in negative_words message then "negative"
  else if any_word_in positive_words message then "positive"
  else "neutral".

(** The classifier as the design document words it: keyword sets, and
    the negative set is consulted first. *)
Module Reference.

Definition negative_set : gset string :=
  {[ "sad"; "depressed"; "anxious"; "upset" ]}.
Definition positive_set : gset string :=
  {[ "happy"; "excited"; "joyful" ]}.

Definition mentions (keys : gset string) (text : string) : Prop :=
  ∃ k, k ∈ keys ∧ PyStr.is_substring k (PyStr.lower text).

Inductive classify (text : string) : string → Prop :=
| classify_negative :
    mentions negative_set text → classify text "negative"
| classify_positive :
    ¬ mentions negative_set text → mentions positive_set text →
    classify text "positive"
| classify_neutral :
    ¬ mentions negative_set text → ¬ mentions positive_set text →
    classify text "neutral".

End Reference.

(** ** The Python store *)

Definition loc := nat.

Abbreviation dict := (gmap string string).

(** The exceptions the pipeline can meet. [KeyError] comes from
    indexing; the others are raised inside [ollama.chat]. *)
Inductive exn : Type :=
| KeyError (key : string)
| ConnectionError
| TimeoutError
| ResponseError (status : string)
| OtherError (name : string).

(** [ChatState], over the representation [L] of the [messages] field: a
    reference for a live instance, the list itself for [model_dump()]. *)
Record state_of (L : Type) : Type := MkState {
  messages : L;
  sentiment : string;
  summary : string;
  feedback : string;
  user_input : string
}.
Arguments MkState {L}.
Arguments messages {L}.
Arguments sentiment {L}.
Arguments summary {L}.
Arguments feedback {L}.
Arguments user_input {L}.

Abbreviation ChatState := (state_of loc).
Abbreviation ChatDump := (state_of (list dict)).

(** The schema's defaults. *)
Definition defaults : ChatDump :=
  MkState [] "neutral" "" "" "".

Definition with_messages {L L'} (st : state_of L) (m : L') : state_of L' :=
  MkState m (sentiment st) (summary st) (feedback st) (user_input st).
Definition with_sentiment {L} (st : state_of L) (v : string) : state_of L :=
  MkState (messages st) v (summary st) (feedback st) (user_input st).
Definition with_summary {L} (st : state_of L) (v : string) : state_of L :=
  MkState (messages st) (sentiment st) v (feedback st) (user_input st).
Definition with_user_input {L} (st : state_of L) (v : string) : state_of L :=
  MkState (messages st) (sentiment st) (summary st) (feedback st) v.

(** One request to the model service: [ollama.chat(model=, messages=)]. *)
Record chat_call : Type := ChatCall {
  model : string;
  chat_messages : list dict
}.

(** What the service sends back, indexed as [r["message"]["content"]]. *)
Abbreviation response := (gmap string (gmap string string)).

Record world : Type := World {
  objs : gmap loc ChatState;      (* ChatState instances *)
  lists : gmap loc (list dict);   (* list objects *)
  trace : list chat_call          (* requests made so far *)
}.

Definition set_objs (w : world) (o : gmap loc ChatState) : world :=
  World o (lists w) (trace w).
Definition set_lists (w : world) (l : gmap loc (list dict)) : world :=
  World (objs w) l (trace w).
Definition set_trace (w : world) (t : list chat_call) : world :=
  World (objs w) (lists w) t.

(** [Stuck] stands for following a reference that is not in the store;
    Python never does. *)
Inductive result (A : Type) : Type :=
| Ok (a : A)
| Raise (e : exn)
| Stuck.
Arguments Ok {A}.
Arguments Raise {A}.
Arguments Stuck {A}.

Definition M (A : Type) : Type := world → result A * world.

#[export] Instance M_ret : MRet M := λ A a w, (Ok a, w).
#[export] Instance M_bind : MBind M := λ A B f m w,
  match m w with
  | (Ok a, w') => f a w'
  | (Raise e, w') => (Raise e, w')
  | (Stuck, w') => (Stuck, w')
  end.

Definition raise {A} (e : exn) : M A := λ w, (Raise e, w).

Definition get_obj (r : loc) : M ChatState := λ w,
  match objs w !! r with
  | Some st => (Ok st, w)
  | None => (Stuck, w)
  end.

Definition put_obj (r : loc) (st : ChatState) : M unit := λ w,
  (Ok (), set_objs w (<[r := st]> (objs w))).

Definition new_obj (st : ChatState) : M loc := λ w,
  let r := fresh (dom (objs w)) in
  (Ok r, set_objs w (<[r := st]> (objs w))).

Definition get_list (l : loc) : M (list dict) := λ w,
  match lists w !! l with
  | Some xs => (Ok xs, w)
  | None => (Stuck, w)
  end.

Definition new_list (xs : list dict) : M loc := λ w,
  let l := fresh (dom (lists w)) in
  (Ok l, set_lists w (<[l := xs]> (lists w))).

Definition put_list (l : loc) (xs : list dict) : M unit := λ w,
  (Ok (), set_lists w (<[l := xs]> (lists w))).

(** [l.append(x)]: the list object is changed in place. *)
Definition list_append (l : loc) (x : dict) : M unit :=
  xs ← get_list l;
  put_list l (xs ++ [x]).

(** [d[k]] *)
Definition getitem {V} (d : gmap string V) (k : string) : M V :=
  match d !! k with
  | Some v => mret v
  | None => raise (KeyError k)
  end.

(** [state.model_copy()]: a new instance with the same field values, so
    the same [messages] list object. *)
Definition model_copy (state : loc) : M loc :=
  st ← get_obj state;
  new_obj st.

(** [state.model_dump()]: the fields as plain data. *)
Definition model_dump (state : loc) : M ChatDump :=
  st ← get_obj state;
  xs ← get_list (messages st);
  mret (with_messages st xs).

(** The constructor applied to a dump's fields: validation builds a new
    list and a new instance. *)
Definition new_ChatState (d : ChatDump) : M loc :=
  l ← new_list (messages d);
  new_obj (with_messages d l).

Definition set_sentiment (state : loc) (v : string) : M unit :=
  st ← get_obj state;
  put_obj state (with_sentiment st v).

Definition set_summary (state : loc) (v : string) : M unit :=
  st ← get_obj state;
  put_obj state (with_summary st v).

Definition set_user_input (state : loc) (v : string) : M unit :=
  st ← get_obj state;
  put_obj state (with_user_input st v).

Definition newline : string := String "010"%char "".

(** ** The pipeline *)

Section pipeline.

(** The model service. *)
Variable backend : list chat_call → chat_call → exn + response.

(** [ollama.chat(model=m, messages=msgs)] *)
Definition chat (m : string) (msgs : list dict) : M response := λ w,
  let c := ChatCall m msgs in
  let w' := set_trace w (trace w ++ [c]) in
  match backend (trace w) c with
  | inl e => (Raise e, w')
  | inr r => (Ok r, w')
  end.

Definition user_message (content : string) : dict :=
  {[ "role" := "user"; "content" := content ]}.

Definition turn (user bot : string) : dict :=
  {[ "user" := user; "bot" := bot ]}.

Definition chatbot_response (state : loc) : M loc :=
  st ← get_obj state;
  let user_input := user_input st in
  response ← chat "llama3" [user_message user_input];
  new_state ← model_copy state;
  ns ← get_obj new_state;
  message ← getitem response "message";
  content ← getitem message "content";
  list_append (messages ns) (turn user_input content);;
  set_sentiment new_state (analyze_sentiment user_input);;
  mret new_state.

(** [msg["user"] + " " + msg["bot"]] *)
Definition turn_text (msg : dict) : M string :=
  u ← getitem msg "user";
  b ← getitem msg "bot";
  mret (u +:+ " " +:+ b).

Definition summarize_conversation (state : loc) : M loc :=
  st ← get_obj state;
  msgs ← get_list (messages st);
  texts ← mapM turn_text msgs;
  let messages_text := PyStr.join newline texts in
  summary ← chat "llama3"
    [user_message ("Summarize this conversation: " +:+ messages_text)];
  new_state ← model_copy state;
  message ← getitem summary "message";
  content ← getitem message "content";
  set_summary new_state content;;
  mret new_state.

Definition update_state (state : loc) : M loc :=
  new_state ← chatbot_response state;
  ns ← get_obj new_state;
  msgs ← get_list (messages ns);
  new_state ← (if (length msgs mod 5 =? 0)%nat
               then summarize_conversation new_state
               else mret new_state);
  d ← model_dump new_state;
  new_ChatState d.

(** The two requests the pipeline makes. *)
Definition respond_call (text : string) : chat_call :=
  ChatCall "llama3" [user_message text].

Definition summary_call (texts : list string) : chat_call :=
  ChatCall "llama3"
    [user_message ("Summarize this conversation: " +:+
                   PyStr.join newline texts)].

(** The text the service answered to request [c] after [tr]. *)
Definition answered (tr : list chat_call) (c : chat_call) (text : string) : Prop :=
  ∃ r m, backend tr c = inr r ∧ r !! "message" = Some m ∧
         m !! "content" = Some text.

(** One turn of the console loop: store the line in the held state,
    then run the workflow's single node on it. *)
Definition respond (state : loc) (text : string) : M loc :=
  set_user_input state text;;
  update_state state.

Fixpoint respond_all (state : loc) (inputs : list string) : M loc :=
  match inputs with
  | [] => mret state
  | text :: rest =>
      state' ← respond state text;
      respond_all state' rest
  end.

(** [state = ChatState()] followed by the loop over the lines read. *)
Definition main (inputs : list string) : M loc :=
  state ← new_ChatState defaults;
  respond_all state inputs.

End pipeline.

Definition empty_world : world := World ∅ ∅ [].

(** What a holder of reference [r] sees: the fields, with the contents
    of the [messages] list. *)
Definition view (w : world) (r : loc) : option ChatDump :=
  st ← objs w !! r;
  xs ← lists w !! messages st;
  Some (with_messages st xs).

Definition reply (text : string) : response :=
  {[ "message" := {[ "role" := "assistant"; "content" := text ]} ]}.

(** *** Sample services and stores *)

(** Answers "ok" to everything. *)
Definition parrot : list chat_call → chat_call → exn + response :=
  λ _ _, inr (reply "ok").

(** Answers with an empty text. *)
Definition mute : list chat_call → chat_call → exn + response :=
  λ _ _, inr (reply "").

(** Cannot be reached. *)
Definition offline : list chat_call → chat_call → exn + response :=
  λ _ _, inl ConnectionError.

(** Answers the respond request, times out on a summary request (the
    second request of a step). *)
Definition flaky : list chat_call → chat_call → exn + response :=
  λ tr _, if (length tr =? 0)%nat then inr (reply "ok") else inl TimeoutError.

(** Answers with a response that has no "message" entry. *)
Definition garbled : list chat_call → chat_call → exn + response :=
  λ _ _, inr ∅.

(** Answers with a message that has no "content" entry. *)
Definition headless : list chat_call → chat_call → exn + response :=
  λ _ _, inr {[ "message" := {[ "role" := "assistant" ]} ]}.

(** A store with one [ChatState] at reference 0, holding [turns] and the
    pending line [text]. *)
Definition one_state (turns : list dict) (text : string) : world :=
  World {[ 0%nat := MkState 0%nat "neutral" "" "" text ]}
        {[ 0%nat := turns ]} [].

Definition four_turns : list dict :=
  [turn "a" "1"; turn "b" "2"; turn "c" "3"; turn "d" "4"].

(** The text of the turns as a value: the lines, or the first
    [KeyError] met. *)
Definition turn_line (msg : dict) : exn + string :=
  match msg !! "user" with
  | None => inl (KeyError "user")
  | Some u =>
      match msg !! "bot" with
      | None => inl (KeyError "bot")
      | Some b => inr (u +:+ " " +:+ b)
      end
  end.

Fixpoint turn_lines (msgs : list dict) : exn + list string :=
  match msgs with
  | [] => inr []
  | msg :: rest =>
      match turn_line msg with
      | inl e => inl e
      | inr y =>
          match turn_lines rest with
          | inl e => inl e
          | inr k => inr (y :: k)
          end
      end
  end.

(** [msg] holds the user text [p.1] and the bot text [p.2]. *)
Definition holds_turn (msg : dict) (p : string * string) : Prop :=
  msg !! "user" = Some p.1 ∧ msg !! "bot" = Some p.2.

(** [userText + " " + botText] *)
Definition pair_line (p : string * string) : string :=
  p.1 +:+ " " +:+ p.2.

(** *** Facts about strings *)

Section string_facts.

Lemma append_cons a x y : String a x +:+ y = String a (x +:+ y).
Proof. reflexivity. Qed.

Lemma prefix_spec x s :
  String.prefix x s = true ↔ ∃ post, s = x +:+ post.
Proof.
  revert s. induction x as [|a x IH]; intros s.
  - destruct s; simpl; split; eauto.
  - destruct s as [|b s]; simpl.
    + split; [discriminate | intros [post H]; discriminate].
    + destruct (Ascii.ascii_dec a b) as [->|Hab].
      * rewrite IH. split; intros [post H]; exists post;
          rewrite append_cons in *; congruence.
      * split; [discriminate|].
        intros [post H]. rewrite append_cons in H. congruence.
Qed.

Lemma contains_unfold x s :
  PyStr.contains x s =
  String.prefix x s ||
  match s with EmptyString => false | String _ r => PyStr.contains x r end.
Proof. destruct s; reflexivity. Qed.

Lemma contains_spec x s :
  PyStr.contains x s = true ↔ PyStr.is_substring x s.
Proof.
  split.
  - induction s as [|c r IH]; rewrite contains_unfold, orb_true_iff.
    + intros [H|H]; [|discriminate].
      apply prefix_spec in H as [post ->]. by exists "", post.
    + intros [H|H].
      * apply prefix_spec in H as [post ->]. by exists "", post.
      * destruct (IH H) as (pre & post & ->). by exists (String c pre), post.
  - intros (pre & post & ->). induction pre as [|c pre IH].
    + rewrite contains_unfold, orb_true_iff. left.
      apply prefix_spec. by exists post.
    + rewrite contains_unfold, orb_true_iff. right. exact IH.
Qed.

End string_facts.

(** ** Running the monad *)

Section run.

Variable backend : list chat_call → chat_call → exn + response.

Lemma run_bind {A B} (m : M A) (f : A → M B) w :
  (m ≫= f) w =
  match m w with
  | (Ok a, w') => f a w'
  | (Raise e, w') => (Raise e, w')
  | (Stuck, w') => (Stuck, w')
  end.
Proof. reflexivity. Qed.

Lemma run_ret {A} (a : A) w : (mret a : M A) w = (Ok a, w).
Proof. reflexivity. Qed.

Lemma run_get_obj {B} r st (f : ChatState → M B) w :
  objs w !! r = Some st → (get_obj r ≫= f) w = f st w.
Proof. intros H. rewrite run_bind. unfold get_obj. by rewrite H. Qed.

Lemma run_get_obj_None {B} r (f : ChatState → M B) w :
  objs w !! r = None → (get_obj r ≫= f) w = (Stuck, w).
Proof. intros H. rewrite run_bind. unfold get_obj. by rewrite H. Qed.

Lemma run_get_list {B} l xs (f : list dict → M B) w :
  lists w !! l = Some xs → (get_list l ≫= f) w = f xs w.
Proof. intros H. rewrite run_bind. unfold get_list. by rewrite H. Qed.

Lemma run_get_list_None {B} l (f : list dict → M B) w :
  lists w !! l = None → (get_list l ≫= f) w = (Stuck, w).
Proof. intros H. rewrite run_bind. unfold get_list. by rewrite H. Qed.

Lemma run_getitem {V B} (d : gmap string V) k v (f : V → M B) w :
  d !! k = Some v → (getitem d k ≫= f) w = f v w.
Proof. intros H. rewrite run_bind. unfold getitem. by rewrite H. Qed.

Lemma run_getitem_None {V B} (d : gmap string V) k (f : V → M B) w :
  d !! k = None → (getitem d k ≫= f) w = (Raise (KeyError k), w).
Proof. intros H. rewrite run_bind. unfold getitem. by rewrite H. Qed.

Lemma run_model_copy {B} r st (f : loc → M B) w :
  objs w !! r = Some st →
  (model_copy r ≫= f) w =
  f (fresh (dom (objs w)))
    (set_objs w (<[fresh (dom (objs w)) := st]> (objs w))).
Proof.
  intros H. rewrite run_bind. unfold model_copy.
  by rewrite (run_get_obj _ _ _ _ H).
Qed.

Lemma run_list_append {B} l xs x (f : unit → M B) w :
  lists w !! l = Some xs →
  (list_append l x ≫= f) w =
  f () (set_lists w (<[l := xs ++ [x]]> (lists w))).
Proof.
  intros H. rewrite run_bind. unfold list_append.
  by rewrite (run_get_list _ _ _ _ H).
Qed.

Lemma run_list_append_None {B} l x (f : unit → M B) w :
  lists w !! l = None → (list_append l x ≫= f) w = (Stuck, w).
Proof.
  intros H. rewrite run_bind. unfold list_append.
  by rewrite (run_get_list_None _ _ _ H).
Qed.

Lemma run_set_sentiment {B} r st v (f : unit → M B) w :
  objs w !! r = Some st →
  (set_sentiment r v ≫= f) w =
  f () (set_objs w (<[r := with_sentiment st v]> (objs w))).
Proof.
  intros H. rewrite run_bind. unfold set_sentiment.
  by rewrite (run_get_obj _ _ _ _ H).
Qed.

Lemma run_set_summary {B} r st v (f : unit → M B) w :
  objs w !! r = Some st →
  (set_summary r v ≫= f) w =
  f () (set_objs w (<[r := with_summary st v]> (objs w))).
Proof.
  intros H. rewrite run_bind. unfold set_summary.
  by rewrite (run_get_obj _ _ _ _ H).
Qed.

Lemma run_set_user_input {B} r st v (f : unit → M B) w :
  objs w !! r = Some st →
  (set_user_input r v ≫= f) w =
  f () (set_objs w (<[r := with_user_input st v]> (objs w))).
Proof.
  intros H. rewrite run_bind. unfold set_user_input.
  by rewrite (run_get_obj _ _ _ _ H).
Qed.

Lemma run_chat {B} m msgs (f : response → M B) w :
  (chat backend m msgs ≫= f) w =
  match backend (trace w) (ChatCall m msgs) with
  | inl e => (Raise e, set_trace w (trace w ++ [ChatCall m msgs]))
  | inr r => f r (set_trace w (trace w ++ [ChatCall m msgs]))
  end.
Proof. rewrite run_bind. unfold chat. by destruct (backend _ _). Qed.

Lemma chatbot_response_run state w :
  chatbot_response backend state w =
  match objs w !! state with
  | None => (Stuck, w)
  | Some st =>
      let c := ChatCall "llama3" [user_message (user_input st)] in
      let new_state := fresh (dom (objs w)) in
      match backend (trace w) c with
      | inl e => (Raise e, set_trace w (trace w ++ [c]))
      | inr r =>
          let w2 := World (<[new_state := st]> (objs w)) (lists w)
                          (trace w ++ [c]) in
          match r !! "message" with
          | None => (Raise (KeyError "message"), w2)
          | Some m =>
              match m !! "content" with
              | None => (Raise (KeyError "content"), w2)
              | Some content =>
                  match lists w !! messages st with
                  | None => (Stuck, w2)
                  | Some xs =>
                      (Ok new_state,
                       World
                         (<[new_state :=
                              with_sentiment st
                                (analyze_sentiment (user_input st))]>
                            (objs w))
                         (<[messages st :=
                              xs ++ [turn (user_input st) content]]>
                            (lists w))
                         (trace w ++ [c]))
                  end
              end
          end
      end
  end.
Proof.
  unfold chatbot_response.
  destruct (objs w !! state) as [st|] eqn:Hst;
    [rewrite (run_get_obj _ _ _ _ Hst) | by rewrite run_get_obj_None].
  rewrite run_chat. cbv zeta.
  destruct (backend _ _) as [e|r]; [reflexivity|].
  rewrite (run_model_copy _ st) by done.
  rewrite (run_get_obj _ st) by apply lookup_insert_eq.
  destruct (r !! "message") as [m|] eqn:Hm;
    [rewrite (run_getitem _ _ _ _ _ Hm) | by rewrite run_getitem_None].
  destruct (m !! "content") as [content|] eqn:Hc;
    [rewrite (run_getitem _ _ _ _ _ Hc) | by rewrite run_getitem_None].
  destruct (lists w !! messages st) as [xs|] eqn:Hxs;
    [rewrite (run_list_append _ xs) by done
    | by rewrite run_list_append_None].
  rewrite (run_set_sentiment _ st) by apply lookup_insert_eq.
  rewrite run_ret. unfold set_objs, set_lists, set_trace; simpl.
  by rewrite insert_insert_eq.
Qed.

Lemma run_turn_text {B} msg (f : string → M B) w :
  (turn_text msg ≫= f) w =
  match turn_line msg with
  | inl e => (Raise e, w)
  | inr y => f y w
  end.
Proof.
  rewrite run_bind. unfold turn_text, turn_line.
  destruct (msg !! "user") as [u|] eqn:Hu;
    [rewrite (run_getitem _ _ _ _ _ Hu) | by rewrite run_getitem_None].
  destruct (msg !! "bot") as [b|] eqn:Hb;
    [by rewrite (run_getitem _ _ _ _ _ Hb) | by rewrite run_getitem_None].
Qed.

Lemma run_mapM_turn_text {B} msgs (f : list string → M B) w :
  (mapM turn_text msgs ≫= f) w =
  match turn_lines msgs with
  | inl e => (Raise e, w)
  | inr texts => f texts w
  end.
Proof.
  revert B f. induction msgs as [|msg rest IH]; intros B f; [done|].
  rewrite run_bind. simpl. rewrite run_turn_text.
  destruct (turn_line msg) as [e|y]; [done|].
  rewrite IH. by destruct (turn_lines rest).
Qed.

Lemma summarize_conversation_run state w :
  summarize_conversation backend state w =
  match objs w !! state with
  | None => (Stuck, w)
  | Some st =>
      match lists w !! messages st with
      | None => (Stuck, w)
      | Some msgs =>
          match turn_lines msgs with
          | inl e => (Raise e, w)
          | inr texts =>
              let c := ChatCall "llama3"
                [user_message ("Summarize this conversation: " +:+
                               PyStr.join newline texts)] in
              let new_state := fresh (dom (objs w)) in
              match backend (trace w) c with
              | inl e => (Raise e, set_trace w (trace w ++ [c]))
              | inr r =>
                  let w2 := World (<[new_state := st]> (objs w)) (lists w)
                                  (trace w ++ [c]) in
                  match r !! "message" with
                  | None => (Raise (KeyError "message"), w2)
                  | Some m =>
                      match m !! "content" with
                      | None => (Raise (KeyError "content"), w2)
                      | Some content =>
                          (Ok new_state,
                           World
                             (<[new_state := with_summary st content]>
                                (objs w))
                             (lists w)
                             (trace w ++ [c]))
                      end
                  end
              end
          end
      end
  end.
Proof.
  unfold summarize_conversation.
  destruct (objs w !! state) as [st|] eqn:Hst;
    [rewrite (run_get_obj _ _ _ _ Hst) | by rewrite run_get_obj_None].
  destruct (lists w !! messages st) as [msgs|] eqn:Hl;
    [rewrite (run_get_list _ _ _ _ Hl) | by rewrite run_get_list_None].
  rewrite run_mapM_turn_text.
  destruct (turn_lines msgs) as [e|texts]; [done|].
  rewrite run_chat. cbv zeta.
  destruct (backend _ _) as [e|r]; [reflexivity|].
  rewrite (run_model_copy _ st) by done.
  destruct (r !! "message") as [m|] eqn:Hm;
    [rewrite (run_getitem _ _ _ _ _ Hm) | by rewrite run_getitem_None].
  destruct (m !! "content") as [content|] eqn:Hc;
    [rewrite (run_getitem _ _ _ _ _ Hc) | by rewrite run_getitem_None].
  rewrite (run_set_summary _ st) by apply lookup_insert_eq.
  rewrite run_ret. unfold set_objs, set_lists, set_trace; simpl.
  by rewrite insert_insert_eq.
Qed.

(** The last line of [update_state]: dump, then build anew. *)
Lemma rebuild_run r st xs w :
  objs w !! r = Some st →
  lists w !! messages st = Some xs →
  (model_dump r ≫= new_ChatState) w =
  (Ok (fresh (dom (objs w))),
   World
     (<[fresh (dom (objs w)) := with_messages st (fresh (dom (lists w)))]>
        (objs w))
     (<[fresh (dom (lists w)) := xs]> (lists w))
     (trace w)).
Proof.
  intros Hst Hxs. rewrite run_bind. unfold model_dump.
  rewrite (run_get_obj _ _ _ _ Hst), (run_get_list _ _ _ _ Hxs).
  by rewrite run_ret.
Qed.

End run.

(** *** Fresh references *)

Section store_facts.

Lemma lookup_fresh {V} (m : gmap loc V) : m !! fresh (dom m) = None.
Proof. apply not_elem_of_dom, is_fresh. Qed.

Lemma insert_fresh_subseteq {V} (m : gmap loc V) v :
  m ⊆ <[fresh (dom m) := v]> m.
Proof. apply insert_subseteq, lookup_fresh. Qed.

End store_facts.

(** ** The shape of a successful step *)

Section update_state_facts.

Variable backend : list chat_call → chat_call → exn + response.

Lemma rebuild_facts w w1 r st2 l0 xs' s' w' :
  objs w ⊆ objs w1 →
  lists w1 = <[l0 := xs']> (lists w) →
  objs w1 !! r = Some st2 →
  messages st2 = l0 →
  (model_dump r ≫= new_ChatState) w1 = (Ok s', w') →
  ∃ l',
    objs w' !! s' = Some (with_messages st2 l') ∧
    lists w' !! l' = Some xs' ∧
    objs w ⊆ objs w' ∧
    lists w' !! l0 = Some xs' ∧
    (∀ l ys, l ≠ l0 → lists w !! l = Some ys → lists w' !! l = Some ys) ∧
    objs w !! s' = None ∧ lists w !! l' = None ∧
    trace w' = trace w1.
Proof.
  intros Hsub Hl Hr Hm.
  assert (lists w1 !! messages st2 = Some xs') as Hxs.
  { rewrite Hm, Hl. apply lookup_insert_eq. }
  rewrite (rebuild_run r st2 xs' w1 Hr Hxs).
  intros [= <- <-]; simpl.
  set (n := fresh (dom (objs w1))). set (l' := fresh (dom (lists w1))).
  assert (lists w1 !! l' = None) as Hl' by apply lookup_fresh.
  assert (l' ≠ l0) as Hne.
  { intros ->. rewrite Hl, lookup_insert_eq in Hl'. done. }
  exists l'. split_and!.
  - apply lookup_insert_eq.
  - apply lookup_insert_eq.
  - etrans; [exact Hsub | apply insert_fresh_subseteq].
  - rewrite lookup_insert_ne by done. rewrite Hl. apply lookup_insert_eq.
  - intros l ys Hll Hys.
    assert (lists w1 !! l = Some ys) as H1.
    { rewrite Hl, lookup_insert_ne by done. done. }
    rewrite lookup_insert_ne; [done|]. intros <-. congruence.
  - destruct (objs w !! n) as [x|] eqn:Hx; [|done].
    pose proof (lookup_weaken _ _ _ _ Hx Hsub) as Hx'.
    unfold n in Hx'. by rewrite lookup_fresh in Hx'.
  - rewrite Hl, lookup_insert_ne in Hl' by done. done.
  - done.
Qed.

Lemma update_state_Ok state w s' w' :
  update_state backend state w = (Ok s', w') →
  ∃ st xs content sum l',
    let xs' := xs ++ [turn (user_input st) content] in
    let c1 := respond_call (user_input st) in
    objs w !! state = Some st ∧
    lists w !! messages st = Some xs ∧
    answered backend (trace w) c1 content ∧
    (if (length xs' mod 5 =? 0)%nat
     then ∃ texts, turn_lines xs' = inr texts ∧
                   answered backend (trace w ++ [c1]) (summary_call texts) sum ∧
                   trace w' = trace w ++ [c1; summary_call texts]
     else sum = summary st ∧ trace w' = trace w ++ [c1]) ∧
    objs w' !! s' =
      Some (MkState l' (analyze_sentiment (user_input st)) sum
                    (feedback st) (user_input st)) ∧
    lists w' !! l' = Some xs' ∧
    objs w ⊆ objs w' ∧
    lists w' !! messages st = Some xs' ∧
    (∀ l ys, l ≠ messages st → lists w !! l = Some ys →
             lists w' !! l = Some ys) ∧
    objs w !! s' = None ∧ lists w !! l' = None.
Proof.
  unfold update_state. rewrite run_bind, chatbot_response_run.
  destruct (objs w !! state) as [st|] eqn:Hst; [|done].
  cbv zeta.
  destruct (backend _ _) as [e|r] eqn:Hr; [done|].
  destruct (r !! "message") as [m|] eqn:Hm; [|done].
  destruct (m !! "content") as [content|] eqn:Hc; [|done].
  destruct (lists w !! messages st) as [xs|] eqn:Hxs; [|done].
  set (n1 := fresh (dom (objs w))).
  set (st1 := with_sentiment st (analyze_sentiment (user_input st))).
  set (xs' := xs ++ [turn (user_input st) content]).
  set (c1 := ChatCall "llama3" [user_message (user_input st)]).
  rewrite (run_get_obj _ st1) by apply lookup_insert_eq.
  rewrite (run_get_list _ xs') by apply lookup_insert_eq.
  rewrite run_bind.
  set (w1 := World (<[n1:=st1]> (objs w)) (<[messages st:=xs']> (lists w))
                   (trace w ++ [c1])).
  assert (objs w ⊆ objs w1) as Hsub1 by apply insert_fresh_subseteq.
  destruct (length xs' mod 5 =? 0)%nat eqn:Hmod.
  - rewrite summarize_conversation_run.
    replace (objs w1 !! n1) with (Some st1)
      by (symmetry; apply lookup_insert_eq).
    replace (lists w1 !! messages st1) with (Some xs')
      by (symmetry; apply lookup_insert_eq).
    destruct (turn_lines xs') as [e|texts] eqn:Hlines; [done|].
    cbv zeta. fold (summary_call texts).
    destruct (backend (trace w1) _) as [e|r2] eqn:Hr2; [done|].
    destruct (r2 !! "message") as [m2|] eqn:Hm2; [|done].
    destruct (m2 !! "content") as [sum|] eqn:Hc2; [|done].
    set (n2 := fresh (dom (objs w1))).
    set (w2 := World _ _ _).
    intros Hrun.
    destruct (rebuild_facts w w2 n2 (with_summary st1 sum) (messages st)
                xs' s' w') as (l' & ? & ? & ? & ? & ? & ? & ? & Htr);
      [ etrans; [exact Hsub1 | apply insert_fresh_subseteq]
      | done | apply lookup_insert_eq | done | exact Hrun | ].
    exists st, xs, content, sum, l'. cbv zeta. fold xs'. rewrite Hmod.
    split_and!; try done.
    + by exists r, m.
    + exists texts. split_and!; [done | by exists r2, m2 |].
      rewrite Htr. simpl. by rewrite <- app_assoc.
  - rewrite run_ret. intros Hrun.
    destruct (rebuild_facts w w1 n1 st1 (messages st) xs' s' w')
      as (l' & ? & ? & ? & ? & ? & ? & ? & Htr);
      [ done | done | apply lookup_insert_eq | done | exact Hrun | ].
    exists st, xs, content, (summary st), l'. cbv zeta. fold xs'.
    rewrite Hmod. split_and!; try done.
    by exists r, m.
Qed.

(** The same in terms of what the holders of the two references see.
    The last part is the sharing: the caller's own instance sees the
    new turn too. *)
Lemma update_state_view state w s' w' :
  update_state backend state w = (Ok s', w') →
  ∃ before bot sum,
    let turns' := messages before ++ [turn (user_input before) bot] in
    let c1 := respond_call (user_input before) in
    view w state = Some before ∧
    answered backend (trace w) c1 bot ∧
    view w' s' =
      Some (MkState turns' (analyze_sentiment (user_input before)) sum
                    (feedback before) (user_input before)) ∧
    (if (length turns' mod 5 =? 0)%nat
     then ∃ texts, turn_lines turns' = inr texts ∧
                   answered backend (trace w ++ [c1]) (summary_call texts) sum ∧
                   trace w' = trace w ++ [c1; summary_call texts]
     else sum = summary before ∧ trace w' = trace w ++ [c1]) ∧
    view w' state = Some (with_messages before turns').
Proof.
  intros Hrun.
  destruct (update_state_Ok _ _ _ _ Hrun)
    as (st & xs & bot & sum & l' & Hst & Hxs & Hans & Hsum & Hs' & Hl'
        & Hsub & Hshared & _).
  exists (with_messages st xs), bot, sum. cbv zeta. simpl.
  split_and!; try done.
  - unfold view. rewrite Hst. simpl. by rewrite Hxs.
  - unfold view. rewrite Hs'. simpl. by rewrite Hl'.
  - unfold view. rewrite (lookup_weaken _ _ _ _ Hst Hsub). simpl.
    by rewrite Hshared.
Qed.

Lemma respond_view state text w s' w' :
  respond backend state text w = (Ok s', w') →
  ∃ before after,
    view w state = Some before ∧ view w' s' = Some after ∧
    length (messages after) = S (length (messages before)).
Proof.
  unfold respond.
  destruct (objs w !! state) as [st|] eqn:Hst;
    [rewrite (run_set_user_input _ _ _ _ _ Hst)
    | by rewrite run_bind; unfold set_user_input;
      rewrite run_get_obj_None].
  intros Hrun.
  destruct (update_state_Ok _ _ _ _ Hrun)
    as (st1 & xs & bot & sum & l' & Hst1 & Hxs & _ & _ & Hs' & Hl' & _).
  simpl in Hst1, Hxs. rewrite lookup_insert_eq in Hst1.
  injection Hst1 as <-. simpl in Hxs.
  eexists (with_messages st xs), _. split_and!.
  - unfold view. rewrite Hst. simpl. by rewrite Hxs.
  - unfold view. rewrite Hs'. simpl. by rewrite Hl'.
  - simpl. rewrite length_app. simpl. lia.
Qed.

Lemma respond_all_length inputs : ∀ state w s' w' before,
  view w state = Some before →
  respond_all backend state inputs w = (Ok s', w') →
  ∃ after, view w' s' = Some after ∧
           length (messages after) =
           (length (messages before) + length inputs)%nat.
Proof.
  induction inputs as [|text rest IH]; intros state w s' w' before Hv.
  - simpl. rewrite run_ret. intros [= <- <-]. exists before.
    split; [done | simpl; lia].
  - simpl. rewrite run_bind.
    destruct (respond backend state text w) as [[s1| |] w1] eqn:Hstep;
      [|done|done].
    intros Hrest.
    destruct (respond_view _ _ _ _ _ Hstep) as (b & a & Hb & Ha & Hlen).
    assert (b = before) as -> by congruence.
    destruct (IH _ _ _ _ _ Ha Hrest) as (after & Hafter & Hlen').
    exists after. split; [done | simpl; lia].
Qed.

Lemma main_length inputs s' w' :
  main backend inputs empty_world = (Ok s', w') →
  ∃ after, view w' s' = Some after ∧
           length (messages after) = length inputs.
Proof.
  unfold main. rewrite run_bind. intros Hrun.
  eapply (respond_all_length inputs _ _ _ _ defaults) in Hrun; [done|].
  reflexivity.
Qed.

Lemma turn_lines_pairs msgs : ∀ texts,
  turn_lines msgs = inr texts →
  ∃ pairs, Forall2 holds_turn msgs pairs ∧ texts = map pair_line pairs.
Proof.
  induction msgs as [|msg rest IH]; intros texts; simpl.
  - intros [= <-]. by exists [].
  - unfold turn_line.
    destruct (msg !! "user") as [u|] eqn:Hu; [|done].
    destruct (msg !! "bot") as [b|] eqn:Hb; [|done].
    destruct (turn_lines rest) as [e|k]; [done|].
    intros [= <-]. destruct (IH k eq_refl) as (pairs & Hall & ->).
    exists ((u, b) :: pairs). split; [|done].
    by constructor.
Qed.

Lemma summarize_conversation_view state w s' w' :
  summarize_conversation backend state w = (Ok s', w') →
  ∃ before texts text,
    view w state = Some before ∧
    turn_lines (messages before) = inr texts ∧
    trace w' = trace w ++ [summary_call texts] ∧
    answered backend (trace w) (summary_call texts) text ∧
    view w' s' = Some (with_summary before text) ∧
    view w' state = Some before ∧
    lists w' = lists w ∧ objs w ⊆ objs w'.
Proof.
  rewrite summarize_conversation_run.
  destruct (objs w !! state) as [st|] eqn:Hst; [|done].
  destruct (lists w !! messages st) as [msgs|] eqn:Hl; [|done].
  destruct (turn_lines msgs) as [e|texts] eqn:Hlines; [done|].
  cbv zeta. fold (summary_call texts).
  destruct (backend _ _) as [e|r] eqn:Hr; [done|].
  destruct (r !! "message") as [m|] eqn:Hm; [|done].
  destruct (m !! "content") as [text|] eqn:Hc; [|done].
  intros [= <- <-].
  assert (state ≠ fresh (dom (objs w))) as Hne.
  { intros Heq. rewrite Heq, lookup_fresh in Hst. done. }
  exists (with_messages st msgs), texts, text. simpl. split_and!.
  - unfold view. rewrite Hst. simpl. by rewrite Hl.
  - done.
  - done.
  - by exists r, m.
  - unfold view. simpl. rewrite lookup_insert_eq. simpl. by rewrite Hl.
  - unfold view. simpl. rewrite lookup_insert_ne by done.
    rewrite Hst. simpl. by rewrite Hl.
  - done.
  - apply insert_fresh_subseteq.
Qed.

(** When the respond request fails, nothing but the trace moves. *)
Lemma chatbot_response_raise state w st e :
  objs w !! state = Some st →
  backend (trace w) (respond_call (user_input st)) = inl e →
  chatbot_response backend state w =
  (Raise e, set_trace w (trace w ++ [respond_call (user_input st)])).
Proof.
  intros Hst He. rewrite chatbot_response_run, Hst. cbv zeta.
  unfold respond_call in He. by rewrite He.
Qed.

Lemma chatbot_response_trace state w st :
  objs w !! state = Some st →
  trace (chatbot_response backend state w).2 =
  trace w ++ [respond_call (user_input st)].
Proof.
  intros Hst. rewrite chatbot_response_run, Hst. cbv zeta.
  destruct (backend _ _) as [e|r]; [done|].
  destruct (r !! "message") as [m|]; [|done].
  destruct (m !! "content") as [text|]; [|done].
  by destruct (lists w !! messages st).
Qed.

End update_state_facts.

(** ** The sentiment classifier *)

Section classifier.

Lemma negative_set_words k :
  k ∈ Reference.negative_set ↔ In k negative_words.
Proof.
  unfold Reference.negative_set, negative_words.
  rewrite !elem_of_union, !elem_of_singleton. simpl. intuition (subst; auto).
Qed.

Lemma positive_set_words k :
  k ∈ Reference.positive_set ↔ In k positive_words.
Proof.
  unfold Reference.positive_set, positive_words.
  rewrite !elem_of_union, !elem_of_singleton. simpl. intuition (subst; auto).
Qed.

Lemma any_word_in_spec words (keys : gset string) text :
  (∀ k, k ∈ keys ↔ In k words) →
  any_word_in words text = true ↔ Reference.mentions keys text.
Proof.
  intros Hkeys. unfold any_word_in, Reference.mentions.
  rewrite existsb_exists. split.
  - intros (k & Hin & Hc). exists k. split; [by apply Hkeys|].
    by apply contains_spec.
  - intros (k & Hin & Hs). exists k. split; [by apply Hkeys|].
    by apply contains_spec.
Qed.

Lemma analyze_sentiment_classify text :
  Reference.classify text (analyze_sentiment text).
Proof.
  unfold analyze_sentiment.
  destruct (any_word_in negative_words text) eqn:Hn.
  - apply Reference.classify_negative.
    by apply (any_word_in_spec _ _ _ negative_set_words).
  - assert (¬ Reference.mentions Reference.negative_set text) as Hn'.
    { rewrite <- (any_word_in_spec _ _ _ negative_set_words). congruence. }
    destruct (any_word_in positive_words text) eqn:Hp.
    + apply Reference.classify_positive; [done|].
      by apply (any_word_in_spec _ _ _ positive_set_words).
    + apply Reference.classify_neutral; [done|].
      rewrite <- (any_word_in_spec _ _ _ positive_set_words). congruence.
Qed.

Lemma classify_functional text l1 l2 :
  Reference.classify text l1 → Reference.classify text l2 → l1 = l2.
Proof. destruct 1; destruct 1; done. Qed.

End classifier.

(** C3. [analyze_sentiment] is the reference classifier: the label it
    returns is the one the keyword-set reading assigns, and no other
    label is assigned (so it is total and deterministic); with keywords
    of both kinds present the label is negative; the label depends on
    the lowercased text only, and "SAD" and "sad" are both negative. *)
Theorem analyze_sentiment_is_reference :
  (∀ text label,
     Reference.classify text label ↔ analyze_sentiment text = label) ∧
  (∀ text,
     Reference.mentions Reference.negative_set text →
     Reference.mentions Reference.positive_set text →
     analyze_sentiment text = "negative") ∧
  (∀ t1 t2, PyStr.lower t1 = PyStr.lower t2 →
            analyze_sentiment t1 = analyze_sentiment t2) ∧
  analyze_sentiment "SAD" = analyze_sentiment "sad" ∧
  analyze_sentiment "sad" = "negative".
Proof.
  split_and!.
  - intros text label. split.
    + intros H. symmetry.
      exact (classify_functional _ _ _ H (analyze_sentiment_classify text)).
    + intros <-. apply analyze_sentiment_classify.
  - intros text Hn _. symmetry.
    apply (classify_functional text); [by constructor|].
    apply analyze_sentiment_classify.
  - intros t1 t2 H. unfold analyze_sentiment, any_word_in. by rewrite H.
  - reflexivity.
  - reflexivity.
Qed.

Lemma analyze_sentiment_is_reference_witness :
  (Reference.classify "So SAD, yet happy" "negative" ↔
   analyze_sentiment "So SAD, yet happy" = "negative") ∧
  analyze_sentiment "So SAD, yet happy" = "negative".
Proof.
  split.
  - apply (proj1 analyze_sentiment_is_reference).
  - reflexivity.
Defined.

(** ** The turn pipeline *)

(** C1. A successful [update_state] returns a state whose turns are the
    input state's turns followed by exactly one new turn, made of the
    pending user text and the text the service answered; and the state
    reached from the initial one by N successful pipeline calls holds
    exactly N turns. *)
Theorem update_state_appends_one_turn backend :
  (∀ state w s' w',
     update_state backend state w = (Ok s', w') →
     ∃ before after bot,
       view w state = Some before ∧ view w' s' = Some after ∧
       answered backend (trace w) (respond_call (user_input before)) bot ∧
       messages after =
       messages before ++ [turn (user_input before) bot]) ∧
  (∀ inputs s' w',
     main backend inputs empty_world = (Ok s', w') →
     ∃ after, view w' s' = Some after ∧
              length (messages after) = length inputs).
Proof.
  split.
  - intros state w s' w' Hrun.
    destruct (update_state_view _ _ _ _ _ Hrun)
      as (before & bot & sum & Hb & Hans & Ha & _).
    by eexists before, _, bot.
  - apply main_length.
Qed.

Lemma update_state_appends_one_turn_witness :
  (∃ s' w',
     update_state parrot 0%nat (one_state [turn "a" "b"] "hi") = (Ok s', w') ∧
     ∃ before after bot,
       view (one_state [turn "a" "b"] "hi") 0%nat = Some before ∧
       view w' s' = Some after ∧
       answered parrot [] (respond_call (user_input before)) bot ∧
       messages after = messages before ++ [turn (user_input before) bot]) ∧
  (∃ s' w',
     main parrot ["x"; "y"; "z"] empty_world = (Ok s', w') ∧
     ∃ after, view w' s' = Some after ∧ length (messages after) = 3%nat).
Proof.
  split.
  - eexists _, _. split; [vm_compute; reflexivity|].
    apply (proj1 (update_state_appends_one_turn parrot)).
    vm_compute; reflexivity.
  - eexists _, _. split; [vm_compute; reflexivity|].
    apply (proj2 (update_state_appends_one_turn parrot) ["x"; "y"; "z"]).
    vm_compute; reflexivity.
Defined.

(** C2. The summary of the state returned by a successful
    [update_state] differs from the input state's summary only when the
    new number of turns is a positive multiple of 5; on every other call
    it is the input state's summary. *)
Theorem summary_changes_only_on_multiples_of_5 backend state w s' w' :
  update_state backend state w = (Ok s', w') →
  ∃ before after,
    view w state = Some before ∧ view w' s' = Some after ∧
    length (messages after) = S (length (messages before)) ∧
    (summary after ≠ summary before →
     (length (messages after) mod 5 = 0 ∧ 0 < length (messages after))%nat) ∧
    ((length (messages after) mod 5 ≠ 0)%nat →
     summary after = summary before).
Proof.
  intros Hrun.
  destruct (update_state_view _ _ _ _ _ Hrun)
    as (before & bot & sum & Hb & _ & Ha & Hsum & _).
  cbv zeta in *. eexists before, _.
  split_and!; [done | done | | |]; cbn [messages summary].
  - rewrite length_app. cbn [length]. lia.
  - intros Hne.
    destruct (length _ mod 5 =? 0)%nat eqn:Hmod.
    + apply Nat.eqb_eq in Hmod. split; [done|].
      rewrite length_app. cbn [length]. lia.
    + by destruct Hsum as [-> _].
  - intros Hmod. apply Nat.eqb_neq in Hmod. rewrite Hmod in Hsum.
    by destruct Hsum as [-> _].
Qed.

Lemma summary_changes_only_on_multiples_of_5_witness :
  ∃ s' w',
    update_state parrot 0%nat (one_state [turn "a" "b"] "hi") = (Ok s', w') ∧
    ∃ before after,
      view (one_state [turn "a" "b"] "hi") 0%nat = Some before ∧
      view w' s' = Some after ∧
      length (messages after) = S (length (messages before)) ∧
      (summary after ≠ summary before →
       (length (messages after) mod 5 = 0 ∧ 0 < length (messages after))%nat) ∧
      ((length (messages after) mod 5 ≠ 0)%nat →
       summary after = summary before).
Proof.
  eexists _, _. split; [vm_compute; reflexivity|].
  apply (summary_changes_only_on_multiples_of_5 parrot).
  vm_compute; reflexivity.
Defined.

(** C10. A successful [update_state], with or without summarization,
    returns a state whose [feedback] and [user_input] are those of the
    input state. *)
Theorem update_state_keeps_feedback_and_user_input backend state w s' w' :
  update_state backend state w = (Ok s', w') →
  ∃ before after,
    view w state = Some before ∧ view w' s' = Some after ∧
    feedback after = feedback before ∧
    user_input after = user_input before.
Proof.
  intros Hrun.
  destruct (update_state_view _ _ _ _ _ Hrun)
    as (before & bot & sum & Hb & _ & Ha & _).
  by eexists before, _.
Qed.

Lemma update_state_keeps_feedback_and_user_input_witness :
  ∃ s' w',
    update_state parrot 0%nat (one_state four_turns "e") = (Ok s', w') ∧
    ∃ before after,
      view (one_state four_turns "e") 0%nat = Some before ∧
      view w' s' = Some after ∧
      feedback after = feedback before ∧
      user_input after = user_input before.
Proof.
  eexists _, _. split; [vm_compute; reflexivity|].
  apply (update_state_keeps_feedback_and_user_input parrot).
  vm_compute; reflexivity.
Defined.

(** ** The summarizer *)

(** C4. A successful [summarize_conversation] makes exactly one request,
    whose single user message is "Summarize this conversation: "
    followed by the lines user text, space, bot text of every turn in
    order, joined by newlines; the state it returns has the answered
    text as its summary, replacing the old one, and every other field
    as in the input state. *)
Theorem summarize_conversation_replaces_summary backend state w s' w' :
  summarize_conversation backend state w = (Ok s', w') →
  ∃ before pairs text,
    let J := PyStr.join newline (map pair_line pairs) in
    let c := ChatCall "llama3"
               [user_message ("Summarize this conversation: " +:+ J)] in
    view w state = Some before ∧
    Forall2 holds_turn (messages before) pairs ∧
    trace w' = trace w ++ [c] ∧
    answered backend (trace w) c text ∧
    view w' s' =
      Some (MkState (messages before) (sentiment before) text
                    (feedback before) (user_input before)).
Proof.
  intros Hrun.
  destruct (summarize_conversation_view _ _ _ _ _ Hrun)
    as (before & texts & text & Hb & Hlines & Htr & Hans & Ha & _).
  destruct (turn_lines_pairs _ _ Hlines) as (pairs & Hall & ->).
  by exists before, pairs, text.
Qed.

Lemma summarize_conversation_replaces_summary_witness :
  ∃ s' w',
    summarize_conversation parrot 0%nat (one_state four_turns "e") =
      (Ok s', w') ∧
    ∃ before pairs text,
      let J := PyStr.join newline (map pair_line pairs) in
      let c := ChatCall "llama3"
                 [user_message ("Summarize this conversation: " +:+ J)] in
      view (one_state four_turns "e") 0%nat = Some before ∧
      Forall2 holds_turn (messages before) pairs ∧
      trace w' = [] ++ [c] ∧
      answered parrot [] c text ∧
      view w' s' =
        Some (MkState (messages before) (sentiment before) text
                      (feedback before) (user_input before)).
Proof.
  eexists _, _. split; [vm_compute; reflexivity|].
  apply (summarize_conversation_replaces_summary parrot).
  vm_compute; reflexivity.
Defined.

(** ** Failures of the model service *)

(** X15. When the request made by the respond step raises, the step and
    [update_state] raise that same exception; one request was made and
    no instance and no list of the store has changed, so the caller's
    state has the turns, sentiment and summary it had. *)
Theorem adapter_failure_propagates backend state w st e :
  objs w !! state = Some st →
  backend (trace w) (respond_call (user_input st)) = inl e →
  ∃ w',
    chatbot_response backend state w = (Raise e, w') ∧
    update_state backend state w = (Raise e, w') ∧
    trace w' = trace w ++ [respond_call (user_input st)] ∧
    objs w' = objs w ∧ lists w' = lists w ∧
    ∀ r, view w' r = view w r.
Proof.
  intros Hst He. eexists. split_and!.
  - by apply chatbot_response_raise.
  - unfold update_state. rewrite run_bind.
    by rewrite (chatbot_response_raise _ _ _ _ _ Hst He).
  - done.
  - done.
  - done.
  - done.
Qed.

Lemma adapter_failure_propagates_witness :
  ∃ w',
    chatbot_response offline 0%nat (one_state four_turns "e") =
      (Raise ConnectionError, w') ∧
    update_state offline 0%nat (one_state four_turns "e") =
      (Raise ConnectionError, w') ∧
    trace w' = [] ++ [respond_call "e"] ∧
    objs w' = objs (one_state four_turns "e") ∧
    lists w' = lists (one_state four_turns "e") ∧
    ∀ r, view w' r = view (one_state four_turns "e") r.
Proof.
  apply (adapter_failure_propagates offline 0%nat (one_state four_turns "e")
           (MkState 0%nat "neutral" "" "" "e") ConnectionError).
  - vm_compute; reflexivity.
  - reflexivity.
Defined.

(** C7. The respond step makes one request, whose message list is the
    single user-role message holding the pending user text; the turns,
    the summary and the other fields do not enter the request. *)
Theorem respond_sends_only_the_latest_input backend state w st :
  objs w !! state = Some st →
  trace (chatbot_response backend state w).2 =
  trace w ++
  [ChatCall "llama3" [ {[ "role" := "user"; "content" := user_input st ]} ]].
Proof. apply chatbot_response_trace. Qed.

Lemma respond_sends_only_the_latest_input_witness :
  objs (one_state four_turns "e") !! 0%nat =
    Some (MkState 0%nat "neutral" "" "" "e") ∧
  trace (chatbot_response parrot 0%nat (one_state four_turns "e")).2 =
  [] ++ [ChatCall "llama3" [ {[ "role" := "user"; "content" := "e" ]} ]].
Proof.
  split; [vm_compute; reflexivity|].
  apply (respond_sends_only_the_latest_input parrot 0%nat
           (one_state four_turns "e") (MkState 0%nat "neutral" "" "" "e")).
  vm_compute; reflexivity.
Defined.

(** C9. A blank pending input goes through the pipeline like any other:
    the request is made with the blank text, the classifier answers
    "neutral", and a successful step appends one turn and leaves the
    sentiment "neutral". *)
Theorem blank_input_is_processed backend state w st :
  objs w !! state = Some st →
  user_input st = "" →
  analyze_sentiment "" = "neutral" ∧
  trace (chatbot_response backend state w).2 = trace w ++ [respond_call ""] ∧
  ∀ s' w',
    update_state backend state w = (Ok s', w') →
    ∃ before after bot rest,
      view w state = Some before ∧ view w' s' = Some after ∧
      trace w' = trace w ++ respond_call "" :: rest ∧
      answered backend (trace w) (respond_call "") bot ∧
      sentiment after = "neutral" ∧
      messages after = messages before ++ [turn "" bot].
Proof.
  intros Hst Hblank. split_and!.
  - reflexivity.
  - by rewrite (chatbot_response_trace _ _ _ _ Hst), Hblank.
  - intros s' w' Hrun.
    destruct (update_state_view _ _ _ _ _ Hrun)
      as (before & bot & sum & Hb & Hans & Ha & Hsum & _).
    cbv zeta in *.
    assert (user_input before = "") as Hu.
    { unfold view in Hb. rewrite Hst in Hb. simpl in Hb.
      destruct (lists w !! messages st); [|done].
      injection Hb as <-. done. }
    rewrite Hu in *.
    destruct (length _ mod 5 =? 0)%nat.
    + destruct Hsum as (texts & _ & _ & Htr).
      by eexists before, _, bot, [_].
    + destruct Hsum as [_ Htr].
      by eexists before, _, bot, [].
Qed.

Lemma blank_input_is_processed_witness :
  objs (one_state [] "") !! 0%nat = Some (MkState 0%nat "neutral" "" "" "") ∧
  analyze_sentiment "" = "neutral" ∧
  trace (chatbot_response parrot 0%nat (one_state [] "")).2 =
    [] ++ [respond_call ""] ∧
  ∃ s' w',
    update_state parrot 0%nat (one_state [] "") = (Ok s', w') ∧
    ∃ before after bot rest,
      view (one_state [] "") 0%nat = Some before ∧ view w' s' = Some after ∧
      trace w' = [] ++ respond_call "" :: rest ∧
      answered parrot [] (respond_call "") bot ∧
      sentiment after = "neutral" ∧
      messages after = messages before ++ [turn "" bot].
Proof.
  split; [vm_compute; reflexivity|].
  destruct (blank_input_is_processed parrot 0%nat (one_state [] "")
              (MkState 0%nat "neutral" "" "" ""))
    as (Hn & Htr & Hstep); [vm_compute; reflexivity | reflexivity |].
  split_and!; [exact Hn | exact Htr |].
  eexists _, _. split; [vm_compute; reflexivity|].
  apply Hstep. vm_compute; reflexivity.
Defined.

(** C8, as the code has it. The step has no error kinds of its own and
    does not inspect the answered text. An exception raised inside the
    request reaches the caller as it is, so different failures of the
    service stay different; a response without its "message" or
    "content" entry ends in [KeyError]; every response that has both,
    the empty text included, is accepted and its text stored as the bot
    text of the new turn. The summarizer treats its own request alike. *)
Theorem adapter_outcomes backend state w st xs :
  objs w !! state = Some st →
  lists w !! messages st = Some xs →
  let c := respond_call (user_input st) in
  (∀ e, backend (trace w) c = inl e →
        (chatbot_response backend state w).1 = Raise e) ∧
  (∀ r, backend (trace w) c = inr r → r !! "message" = None →
        (chatbot_response backend state w).1 = Raise (KeyError "message")) ∧
  (∀ r m, backend (trace w) c = inr r → r !! "message" = Some m →
          m !! "content" = None →
          (chatbot_response backend state w).1 = Raise (KeyError "content")) ∧
  (∀ text, answered backend (trace w) c text →
     ∃ s' w' l,
       chatbot_response backend state w = (Ok s', w') ∧
       objs w' !! s' =
         Some (with_sentiment st (analyze_sentiment (user_input st))) ∧
       l = messages st ∧
       lists w' !! l = Some (xs ++ [turn (user_input st) text])) ∧
  (∀ texts, turn_lines xs = inr texts →
     let c2 := summary_call texts in
     (∀ e, backend (trace w) c2 = inl e →
           (summarize_conversation backend state w).1 = Raise e) ∧
     (∀ r, backend (trace w) c2 = inr r → r !! "message" = None →
           (summarize_conversation backend state w).1 =
           Raise (KeyError "message")) ∧
     (∀ r m, backend (trace w) c2 = inr r → r !! "message" = Some m →
             m !! "content" = None →
             (summarize_conversation backend state w).1 =
             Raise (KeyError "content")) ∧
     (∀ text, answered backend (trace w) c2 text →
        ∃ s' w',
          summarize_conversation backend state w = (Ok s', w') ∧
          objs w' !! s' = Some (with_summary st text))).
Proof.
  intros Hst Hxs. cbv zeta. split_and!.
  - intros e He. by rewrite (chatbot_response_raise _ _ _ _ _ Hst He).
  - intros r Hr Hm. rewrite chatbot_response_run, Hst. cbv zeta.
    unfold respond_call in Hr. by rewrite Hr, Hm.
  - intros r m Hr Hm Hc. rewrite chatbot_response_run, Hst. cbv zeta.
    unfold respond_call in Hr. by rewrite Hr, Hm, Hc.
  - intros text (r & m & Hr & Hm & Hc).
    rewrite chatbot_response_run, Hst. cbv zeta.
    unfold respond_call in Hr. rewrite Hr, Hm, Hc, Hxs.
    eexists _, _, _. split_and!; [done | | done |]; simpl.
    + apply lookup_insert_eq.
    + apply lookup_insert_eq.
  - intros texts Hlines. split_and!.
    + intros e He. rewrite summarize_conversation_run, Hst, Hxs, Hlines.
      cbv zeta. unfold summary_call in He. by rewrite He.
    + intros r Hr Hm. rewrite summarize_conversation_run, Hst, Hxs, Hlines.
      cbv zeta. unfold summary_call in Hr. by rewrite Hr, Hm.
    + intros r m Hr Hm Hc.
      rewrite summarize_conversation_run, Hst, Hxs, Hlines.
      cbv zeta. unfold summary_call in Hr. by rewrite Hr, Hm, Hc.
    + intros text (r & m & Hr & Hm & Hc).
      rewrite summarize_conversation_run, Hst, Hxs, Hlines.
      cbv zeta. unfold summary_call in Hr. rewrite Hr, Hm, Hc.
      eexists _, _. split; [done|]. simpl. apply lookup_insert_eq.
Qed.

Lemma adapter_outcomes_witness :
  objs (one_state [] "hi") !! 0%nat = Some (MkState 0%nat "neutral" "" "" "hi") ∧
  lists (one_state [] "hi") !! 0%nat = Some [] ∧
  answered mute [] (respond_call "hi") "" ∧
  ∃ s' w' l,
    chatbot_response mute 0%nat (one_state [] "hi") = (Ok s', w') ∧
    objs w' !! s' = Some (MkState 0%nat "neutral" "" "" "hi") ∧
    l = 0%nat ∧
    lists w' !! l = Some ([] ++ [turn "hi" ""]).
Proof.
  assert (answered mute [] (respond_call "hi") "") as Hans.
  { eexists _, _. split_and!; [reflexivity | |]; vm_compute; reflexivity. }
  split_and!; [vm_compute; reflexivity | vm_compute; reflexivity | exact Hans |].
  destruct (adapter_outcomes mute 0%nat (one_state [] "hi")
              (MkState 0%nat "neutral" "" "" "hi") [])
    as (_ & _ & _ & Hok & _);
    [vm_compute; reflexivity | vm_compute; reflexivity |].
  exact (Hok "" Hans).
Defined.

(** C8, as stated, fails: an empty answer of the service is not turned
    into an error; the step succeeds and stores the empty text. *)
Lemma empty_answer_is_not_an_error :
  ¬ (∀ backend state w st,
       objs w !! state = Some st →
       answered backend (trace w) (respond_call (user_input st)) "" →
       ∃ e w', chatbot_response backend state w = (Raise e, w')).
Proof.
  intros H.
  destruct (H mute 0%nat (one_state [] "hi")
              (MkState 0%nat "neutral" "" "" "hi"))
    as (e & w' & Heq).
  - vm_compute; reflexivity.
  - eexists _, _. split_and!; [reflexivity | |]; vm_compute; reflexivity.
  - vm_compute in Heq. discriminate Heq.
Qed.

(** ** Sharing of the turns list *)

(** After every successful [update_state] the instance the caller passed
    in sees the new turn as well: its [messages] list is the one the
    step appended to. *)
Lemma update_state_shares_messages backend state w s' w' :
  update_state backend state w = (Ok s', w') →
  ∃ before bot,
    view w state = Some before ∧
    view w' state =
      Some (with_messages before
              (messages before ++ [turn (user_input before) bot])).
Proof.
  intros Hrun.
  destruct (update_state_view _ _ _ _ _ Hrun)
    as (before & bot & sum & Hb & _ & _ & _ & Hshared).
  by exists before, bot.
Qed.

(** C6 does not hold of the code. The caller holds a state with no turn
    and the pending line "I am sad"; after [update_state] returns, that
    same state holds one turn. Its other fields are as they were: the
    new sentiment is in the returned state only. *)
Example update_state_mutates_callers_turns :
  view (one_state [] "I am sad") 0%nat =
    Some (MkState [] "neutral" "" "" "I am sad") ∧
  ∃ s' w',
    update_state parrot 0%nat (one_state [] "I am sad") = (Ok s', w') ∧
    view w' 0%nat =
      Some (MkState [turn "I am sad" "ok"] "neutral" "" "" "I am sad") ∧
    view w' s' =
      Some (MkState [turn "I am sad" "ok"] "negative" "" "" "I am sad") ∧
    s' ≠ 0%nat.
Proof.
  split; [vm_compute; reflexivity|].
  eexists _, _.
  split_and!; [vm_compute; reflexivity | vm_compute; reflexivity
              | vm_compute; reflexivity |].
  vm_compute. discriminate.
Qed.

(** The same sharing shows when the summary request of a fifth turn
    fails: the exception reaches the caller after the turn was appended
    to the caller's list. *)
Example summary_failure_leaves_appended_turn :
  ∃ w',
    update_state flaky 0%nat (one_state four_turns "e") =
      (Raise TimeoutError, w') ∧
    view w' 0%nat =
      Some (MkState (four_turns ++ [turn "e" "ok"]) "neutral" "" "" "e").
Proof.
  eexists. split; vm_compute; reflexivity.
Qed.

(** ** More on the classifier *)

Section classifier_more.

Lemma lower_app a b : PyStr.lower (a +:+ b) = PyStr.lower a +:+ PyStr.lower b.
Proof.
  induction a as [|c a IH]; [done|].
  rewrite append_cons. simpl. by rewrite IH.
Qed.

Lemma lower_char_idemp c :
  PyStr.lower_char (PyStr.lower_char c) = PyStr.lower_char c.
Proof. destruct c as [[] [] [] [] [] [] [] []]; reflexivity. Qed.

Lemma lower_idemp s : PyStr.lower (PyStr.lower s) = PyStr.lower s.
Proof.
  induction s as [|c s IH]; [done|].
  simpl. by rewrite lower_char_idemp, IH.
Qed.

Lemma lower_length s : String.length (PyStr.lower s) = String.length s.
Proof. induction s as [|c s IH]; [done|]. simpl. by rewrite IH. Qed.

Lemma string_length_app a b :
  String.length (a +:+ b) = (String.length a + String.length b)%nat.
Proof.
  induction a as [|c a IH]; [done|].
  rewrite append_cons. simpl. by rewrite IH.
Qed.

Lemma is_substring_length x s :
  PyStr.is_substring x s → (String.length x ≤ String.length s)%nat.
Proof.
  intros (pre & post & ->). rewrite !string_length_app. lia.
Qed.

Lemma keyword_is_lowercase k :
  In k (negative_words ++ positive_words) → PyStr.lower k = k.
Proof.
  simpl. intros H.
  repeat (destruct H as [<-|H]; [reflexivity|]). destruct H.
Qed.

Lemma any_word_in_occurrence words k kw pre post :
  In k words → PyStr.lower kw = k →
  any_word_in words (pre +:+ kw +:+ post) = true.
Proof.
  intros Hin Hk. unfold any_word_in. apply existsb_exists.
  exists k. split; [done|]. apply contains_spec.
  exists (PyStr.lower pre), (PyStr.lower post).
  by rewrite !lower_app, Hk.
Qed.

Lemma any_word_in_short words text :
  (∀ k, In k words → (String.length text < String.length k)%nat) →
  any_word_in words text = false.
Proof.
  intros Hshort. destruct (any_word_in words text) eqn:Hany; [|done].
  unfold any_word_in in Hany. apply existsb_exists in Hany.
  destruct Hany as (k & Hin & Hc).
  apply contains_spec, is_substring_length in Hc.
  rewrite lower_length in Hc. specialize (Hshort k Hin). lia.
Qed.

End classifier_more.

(** X1. A negative keyword in any spelling of upper and lower case,
    with any text before and after it, gives the label negative. *)
Theorem negative_keyword_anywhere k kw pre post :
  In k negative_words →
  PyStr.lower kw = k →
  analyze_sentiment (pre +:+ kw +:+ post) = "negative".
Proof.
  intros Hin Hk. unfold analyze_sentiment.
  by rewrite (any_word_in_occurrence _ k kw pre post Hin Hk).
Qed.

Lemma negative_keyword_anywhere_witness :
  In "upset" negative_words ∧ PyStr.lower "UpSeT" = "upset" ∧
  analyze_sentiment ("so happy, then " +:+ "UpSeT" +:+ "ting news") =
  "negative".
Proof.
  split; [simpl; tauto|]. split; [reflexivity|].
  apply (negative_keyword_anywhere "upset" "UpSeT"); [simpl; tauto | reflexivity].
Defined.

(** X2. A positive keyword in any spelling, with any text around it,
    gives the label positive as long as no negative keyword occurs in
    the whole text. *)
Theorem positive_keyword_without_negative k kw pre post :
  In k positive_words →
  PyStr.lower kw = k →
  any_word_in negative_words (pre +:+ kw +:+ post) = false →
  analyze_sentiment (pre +:+ kw +:+ post) = "positive".
Proof.
  intros Hin Hk Hneg. unfold analyze_sentiment.
  by rewrite Hneg, (any_word_in_occurrence _ k kw pre post Hin Hk).
Qed.

Lemma positive_keyword_without_negative_witness :
  In "happy" positive_words ∧ PyStr.lower "HAPPY" = "happy" ∧
  any_word_in negative_words ("un" +:+ "HAPPY" +:+ " days") = false ∧
  analyze_sentiment ("un" +:+ "HAPPY" +:+ " days") = "positive".
Proof.
  split; [simpl; tauto|]. split; [reflexivity|]. split; [reflexivity|].
  apply (positive_keyword_without_negative "happy" "HAPPY");
    [simpl; tauto | reflexivity | reflexivity].
Defined.

(** X3. A text of fewer than three characters holds no keyword: its
    label is neutral. *)
Theorem short_text_is_neutral text :
  (String.length text < 3)%nat →
  analyze_sentiment text = "neutral".
Proof.
  intros Hlen. unfold analyze_sentiment.
  rewrite !any_word_in_short; [done | |].
  - intros k Hk. simpl in Hk.
    repeat (destruct Hk as [<-|Hk]; [simpl; lia|]). destruct Hk.
  - intros k Hk. simpl in Hk.
    repeat (destruct Hk as [<-|Hk]; [simpl; lia|]). destruct Hk.
Qed.

Lemma short_text_is_neutral_witness :
  (String.length "SA" < 3)%nat ∧ analyze_sentiment "SA" = "neutral".
Proof.
  split; [simpl; lia|]. apply (short_text_is_neutral "SA"). simpl; lia.
Defined.

(** X4. Lowercasing a text beforehand does not change its label. *)
Theorem analyze_sentiment_of_lowercased text :
  analyze_sentiment (PyStr.lower text) = analyze_sentiment text.
Proof.
  unfold analyze_sentiment, any_word_in. by rewrite lower_idemp.
Qed.

(** ** More on the pipeline *)

Section pipeline_more.

Variable backend : list chat_call → chat_call → exn + response.

(** What a step leaves alone: an instance that does not share the list
    of the state stepped on. *)
Lemma update_state_frame state w s' w' st r0 st0 ys :
  update_state backend state w = (Ok s', w') →
  objs w !! state = Some st →
  objs w !! r0 = Some st0 →
  messages st0 ≠ messages st →
  lists w !! messages st0 = Some ys →
  view w' r0 = Some (with_messages st0 ys).
Proof.
  intros Hrun Hst Hr0 Hne Hys.
  destruct (update_state_Ok _ _ _ _ _ Hrun)
    as (st' & xs & bot & sum & l' & Hst' & _ & _ & _ & _ & _ & Hsub & _
        & Hframe & _).
  assert (st' = st) as -> by congruence.
  unfold view. rewrite (lookup_weaken _ _ _ _ Hr0 Hsub). simpl.
  by rewrite (Hframe _ _ Hne Hys).
Qed.

(** One turn of the loop, in full. *)
Lemma respond_step state text w s' w' :
  respond backend state text w = (Ok s', w') →
  ∃ st xs bot sum l',
    objs w !! state = Some st ∧
    lists w !! messages st = Some xs ∧
    objs w' !! s' =
      Some (MkState l' (analyze_sentiment text) sum (feedback st) text) ∧
    lists w' !! l' = Some (xs ++ [turn text bot]) ∧
    (if (length (xs ++ [turn text bot]) mod 5 =? 0)%nat
     then length (trace w') = (length (trace w) + 2)%nat
     else sum = summary st ∧ length (trace w') = (length (trace w) + 1)%nat) ∧
    (∀ r0 st0, r0 ≠ state → objs w !! r0 = Some st0 →
               objs w' !! r0 = Some st0) ∧
    (∀ l ys, l ≠ messages st → lists w !! l = Some ys →
             lists w' !! l = Some ys) ∧
    objs w !! s' = None ∧ lists w !! l' = None.
Proof.
  unfold respond.
  destruct (objs w !! state) as [st|] eqn:Hst;
    [rewrite (run_set_user_input _ _ _ _ _ Hst)
    | by rewrite run_bind; unfold set_user_input; rewrite run_get_obj_None].
  intros Hrun.
  destruct (update_state_Ok _ _ _ _ _ Hrun)
    as (st1 & xs & bot & sum & l' & Hst1 & Hxs & _ & Hsum & Hs' & Hl'
        & Hsub & _ & Hframe & Hfresh & Hlfresh).
  cbv zeta in *.
  cbn [set_objs objs lists trace] in Hst1, Hxs, Hsub, Hframe, Hfresh,
    Hlfresh, Hsum.
  rewrite lookup_insert_eq in Hst1. injection Hst1 as <-.
  cbn [with_user_input user_input messages summary feedback] in *.
  exists st, xs, bot, sum, l'. split_and!; try done.
  - destruct (length (xs ++ [turn text bot]) mod 5 =? 0)%nat.
    + destruct Hsum as (texts & _ & _ & ->). rewrite length_app. simpl. lia.
    + destruct Hsum as [-> ->]. split; [done|]. rewrite length_app. simpl. lia.
  - intros r0 st0 Hne Hr0. eapply lookup_weaken; [|exact Hsub].
    by rewrite lookup_insert_ne.
  - destruct (decide (s' = state)) as [->|Hne].
    + by rewrite lookup_insert_eq in Hfresh.
    + by rewrite lookup_insert_ne in Hfresh.
Qed.

End pipeline_more.

Section loop_more.

Variable backend : list chat_call → chat_call → exn + response.

Lemma respond_view_full state text w s' w' before :
  view w state = Some before →
  respond backend state text w = (Ok s', w') →
  ∃ after,
    view w' s' = Some after ∧
    length (messages after) = S (length (messages before)) ∧
    sentiment after = analyze_sentiment text ∧
    user_input after = text ∧
    (if (S (length (messages before)) mod 5 =? 0)%nat
     then length (trace w') = (length (trace w) + 2)%nat
     else summary after = summary before ∧
          length (trace w') = (length (trace w) + 1)%nat).
Proof.
  intros Hv Hrun.
  destruct (respond_step _ _ _ _ _ _ Hrun)
    as (st & xs & bot & sum & l' & Hst & Hxs & Hs' & Hl' & Hsum & _).
  unfold view in Hv. rewrite Hst in Hv. cbn [mbind option_bind] in Hv.
  rewrite Hxs in Hv. cbn [mbind option_bind] in Hv. injection Hv as <-.
  eexists. split_and!.
  - unfold view. rewrite Hs'. cbn [mbind option_bind messages].
    rewrite Hl'. reflexivity.
  - cbn [with_messages messages]. rewrite length_app. cbn [length]. lia.
  - done.
  - done.
  - cbn [with_messages messages summary].
    replace (S (length xs)) with (length (xs ++ [turn text bot]))
      by (rewrite length_app; cbn [length]; lia).
    done.
Qed.

Lemma step_count n :
  (S n / 5 = n / 5 + (if S n mod 5 =? 0 then 1 else 0))%nat.
Proof.
  pose proof (Nat.div_mod_eq n 5) as Hn.
  pose proof (Nat.div_mod_eq (S n) 5) as Hn'.
  pose proof (Nat.mod_upper_bound n 5) as Hb.
  pose proof (Nat.mod_upper_bound (S n) 5) as Hb'.
  destruct (S n mod 5 =? 0)%nat eqn:Hz.
  - apply Nat.eqb_eq in Hz. lia.
  - apply Nat.eqb_neq in Hz. lia.
Qed.

Lemma respond_all_invariant inputs : ∀ state w s' w' before,
  view w state = Some before →
  respond_all backend state inputs w = (Ok s', w') →
  ∃ after,
    view w' s' = Some after ∧
    length (messages after) =
      (length (messages before) + length inputs)%nat ∧
    (length (trace w') + length (messages before) / 5 =
     length (trace w) + length inputs + length (messages after) / 5)%nat ∧
    ((length (messages after) < 5)%nat → summary after = summary before) ∧
    (∀ text, last inputs = Some text →
             sentiment after = analyze_sentiment text ∧
             user_input after = text).
Proof.
  induction inputs as [|text rest IH]; intros state w s' w' before Hv.
  - cbn [respond_all]. rewrite run_ret. intros [= <- <-]. exists before.
    cbn [length]. split_and!; [done | lia | lia | done | done].
  - cbn [respond_all]. rewrite run_bind.
    destruct (respond backend state text w) as [[s1| |] w1] eqn:Hstep;
      [|done|done].
    intros Hrest.
    destruct (respond_view_full _ _ _ _ _ _ Hv Hstep)
      as (mid & Hmid & Hlen1 & Hsent & Hui & Hcount).
    destruct (IH _ _ _ _ _ Hmid Hrest)
      as (after & Hafter & Hlen & Htr & Hsum & Hlast).
    pose proof (step_count (length (messages before))) as Hsc.
    exists after. cbn [length]. split_and!.
    + done.
    + lia.
    + rewrite Hlen1 in Htr.
      destruct (S (length (messages before)) mod 5 =? 0)%nat; lia.
    + intros Hlt. rewrite (Hsum Hlt).
      destruct (S (length (messages before)) mod 5 =? 0)%nat eqn:Hz.
      * apply Nat.eqb_eq in Hz.
        rewrite Nat.mod_small in Hz by lia. done.
      * by destruct Hcount.
    + intros t Ht. destruct rest as [|t' rest'].
      * cbn in Ht. injection Ht as <-.
        cbn [respond_all] in Hrest. rewrite run_ret in Hrest.
        injection Hrest as <- <-.
        assert (after = mid) as -> by congruence. done.
      * apply Hlast. exact Ht.
Qed.

Lemma main_start :
  new_ChatState defaults empty_world =
  (Ok 0%nat, one_state [] "") .
Proof. vm_compute. reflexivity. Qed.

Lemma holds_turn_lines msgs pairs :
  Forall2 holds_turn msgs pairs →
  turn_lines msgs = inr (map pair_line pairs).
Proof.
  induction 1 as [|msg [u b] msgs pairs [Hu Hb] _ IH]; [done|].
  cbn [turn_lines map]. unfold turn_line. simpl in Hu, Hb.
  by rewrite Hu, Hb, IH.
Qed.

Lemma turn_lines_missing good bad rest :
  Forall (λ msg : dict, is_Some (msg !! "user") ∧ is_Some (msg !! "bot")) good →
  (bad !! "user" = None →
   turn_lines (good ++ bad :: rest) = inl (KeyError "user")) ∧
  (is_Some (bad !! "user") → bad !! "bot" = None →
   turn_lines (good ++ bad :: rest) = inl (KeyError "bot")).
Proof.
  induction 1 as [|msg good [[u Hu] [b Hb]] _ [IHu IHb]].
  - cbn [app turn_lines]. unfold turn_line. split.
    + by intros ->.
    + intros [u ->] ->. done.
  - assert (turn_line msg = inr (u +:+ " " +:+ b)) as Hline.
    { unfold turn_line. by rewrite Hu, Hb. }
    split.
    + intros H. cbn [app turn_lines]. by rewrite Hline, (IHu H).
    + intros H1 H2. cbn [app turn_lines]. by rewrite Hline, (IHb H1 H2).
Qed.

End loop_more.

Lemma main_invariant backend inputs s' w' :
  main backend inputs empty_world = (Ok s', w') →
  ∃ after,
    view w' s' = Some after ∧
    length (messages after) = length inputs ∧
    length (trace w') = (length inputs + length inputs / 5)%nat ∧
    ((length inputs < 5)%nat → summary after = "") ∧
    (∀ text, last inputs = Some text →
             sentiment after = analyze_sentiment text ∧
             user_input after = text).
Proof.
  unfold main. rewrite run_bind, main_start. intros Hrun.
  destruct (respond_all_invariant backend inputs 0%nat (one_state [] "")
              s' w' defaults)
    as (after & Ha & Hlen & Htr & Hsum & Hlast); [reflexivity | exact Hrun |].
  cbn [defaults messages length summary one_state trace] in *.
  change (0 / 5)%nat with 0%nat in Htr.
  rewrite Nat.add_0_l in Hlen.
  exists after. split_and!; [done | done | | | done].
  - rewrite Hlen in Htr. lia.
  - intros Hlt. apply Hsum. lia.
Qed.

(** X5. In the state a successful [update_state] returns, the sentiment
    is the label of that state's own [user_input]. *)
Theorem sentiment_follows_user_input backend state w s' w' :
  update_state backend state w = (Ok s', w') →
  ∃ after,
    view w' s' = Some after ∧
    sentiment after = analyze_sentiment (user_input after).
Proof.
  intros Hrun.
  destruct (update_state_view _ _ _ _ _ Hrun)
    as (before & bot & sum & _ & _ & Ha & _).
  by eexists.
Qed.

Lemma sentiment_follows_user_input_witness :
  ∃ s' w',
    update_state parrot 0%nat (one_state four_turns "so Excited") =
      (Ok s', w') ∧
    ∃ after,
      view w' s' = Some after ∧
      sentiment after = analyze_sentiment (user_input after).
Proof.
  eexists _, _. split; [vm_compute; reflexivity|].
  apply (sentiment_follows_user_input parrot 0%nat
           (one_state four_turns "so Excited")).
  vm_compute; reflexivity.
Defined.

(** X6. The state [update_state] returns owns a list of its own: a later
    turn of the loop on the returned state leaves the earlier state as
    the first call left it, with one turn more than it had and no
    further one. *)
Theorem later_step_leaves_earlier_state backend s0 w0 s1 w1 text s2 w2 :
  update_state backend s0 w0 = (Ok s1, w1) →
  respond backend s1 text w1 = (Ok s2, w2) →
  ∃ before bot,
    view w0 s0 = Some before ∧
    view w1 s0 =
      Some (with_messages before
              (messages before ++ [turn (user_input before) bot])) ∧
    view w2 s0 = view w1 s0.
Proof.
  intros Hrun1 Hrun2.
  destruct (update_state_Ok _ _ _ _ _ Hrun1)
    as (st & xs & bot & sum & l' & Hst & Hxs & _ & _ & Hs1 & Hl' & Hsub
        & Hshared & _ & Hfresh & Hlfresh).
  cbv zeta in *.
  destruct (respond_step _ _ _ _ _ _ Hrun2)
    as (st1 & xs1 & bot1 & sum1 & l2 & Hst1 & _ & _ & _ & _ & Hobj & Hlist
        & _).
  assert (st1 = MkState l' (analyze_sentiment (user_input st)) sum
                        (feedback st) (user_input st)) as -> by congruence.
  cbn [messages] in Hlist.
  assert (s0 ≠ s1) as Hne by (intros ->; congruence).
  assert (messages st ≠ l') as Hlne by (intros Heq; congruence).
  pose proof (lookup_weaken _ _ _ _ Hst Hsub) as Hst'.
  exists (with_messages st xs), bot. split_and!.
  - unfold view. rewrite Hst. simpl. by rewrite Hxs.
  - unfold view. rewrite Hst'. simpl. by rewrite Hshared.
  - unfold view. rewrite (Hobj _ _ Hne Hst'), Hst'. simpl.
    by rewrite (Hlist _ _ Hlne Hshared), Hshared.
Qed.

Lemma later_step_leaves_earlier_state_witness :
  ∃ s1 w1 s2 w2,
    update_state parrot 0%nat (one_state [] "one") = (Ok s1, w1) ∧
    respond parrot s1 "two" w1 = (Ok s2, w2) ∧
    ∃ before bot,
      view (one_state [] "one") 0%nat = Some before ∧
      view w1 0%nat =
        Some (with_messages before
                (messages before ++ [turn (user_input before) bot])) ∧
      view w2 0%nat = view w1 0%nat.
Proof.
  pose (r1 := update_state parrot 0%nat (one_state [] "one")).
  pose (s1 := match r1.1 with Ok s => s | _ => 0%nat end).
  pose (r2 := respond parrot s1 "two" r1.2).
  pose (s2 := match r2.1 with Ok s => s | _ => 0%nat end).
  exists s1, r1.2, s2, r2.2.
  split; [vm_compute; reflexivity|]. split; [vm_compute; reflexivity|].
  apply (later_step_leaves_earlier_state parrot 0%nat (one_state [] "one")
           s1 r1.2 "two" s2 r2.2); vm_compute; reflexivity.
Defined.

(** X7. When a turn of the list lacks its "user" entry, or has it and
    lacks its "bot" entry, and the turns before it have both,
    [summarize_conversation] raises [KeyError] with that key; no request
    is made and the store is as it was. *)
Theorem summarize_conversation_missing_key
        backend state w st good bad rest :
  objs w !! state = Some st →
  lists w !! messages st = Some (good ++ bad :: rest) →
  Forall (λ msg : dict, is_Some (msg !! "user") ∧ is_Some (msg !! "bot"))
         good →
  (bad !! "user" = None →
   summarize_conversation backend state w = (Raise (KeyError "user"), w)) ∧
  (is_Some (bad !! "user") → bad !! "bot" = None →
   summarize_conversation backend state w = (Raise (KeyError "bot"), w)).
Proof.
  intros Hst Hxs Hgood.
  destruct (turn_lines_missing good bad rest Hgood) as [Hu Hb].
  split.
  - intros H. by rewrite summarize_conversation_run, Hst, Hxs, (Hu H).
  - intros H1 H2.
    by rewrite summarize_conversation_run, Hst, Hxs, (Hb H1 H2).
Qed.

Lemma summarize_conversation_missing_key_witness :
  summarize_conversation parrot 0%nat
    (one_state [turn "a" "1"; {[ "user" := "b" ]}; turn "c" "3"] "x") =
  (Raise (KeyError "bot"),
   one_state [turn "a" "1"; {[ "user" := "b" ]}; turn "c" "3"] "x").
Proof.
  refine (proj2 (summarize_conversation_missing_key parrot 0%nat
            (one_state [turn "a" "1"; {[ "user" := "b" ]}; turn "c" "3"] "x")
            (MkState 0%nat "neutral" "" "" "x")
            [turn "a" "1"] {[ "user" := "b" ]} [turn "c" "3"] _ _ _) _ _).
  - vm_compute; reflexivity.
  - vm_compute; reflexivity.
  - constructor; [|constructor]. split; eexists; vm_compute; reflexivity.
  - eexists; vm_compute; reflexivity.
  - vm_compute; reflexivity.
Defined.

(** X8. Whatever its outcome, [summarize_conversation] changes no list
    and no instance that was there; it can only add an instance. *)
Theorem summarize_conversation_never_mutates backend state w :
  lists (summarize_conversation backend state w).2 = lists w ∧
  objs w ⊆ objs (summarize_conversation backend state w).2.
Proof.
  rewrite summarize_conversation_run.
  destruct (objs w !! state) as [st|]; [|done].
  destruct (lists w !! messages st) as [msgs|]; [|done].
  destruct (turn_lines msgs) as [e|texts]; [done|].
  cbv zeta. destruct (backend _ _) as [e|r]; [done|].
  destruct (r !! "message") as [m|];
    [|split; [done | apply insert_fresh_subseteq]].
  destruct (m !! "content") as [text|];
    split; try done; apply insert_fresh_subseteq.
Qed.

(** X9. On a step that reaches a multiple of five turns, when the
    summary request raises, [update_state] raises that exception after
    two requests, and the caller's state already holds the new turn. *)
Theorem summary_failure_after_append
        backend state w st xs bot pairs e :
  objs w !! state = Some st →
  lists w !! messages st = Some xs →
  answered backend (trace w) (respond_call (user_input st)) bot →
  (length (xs ++ [turn (user_input st) bot]) mod 5 = 0)%nat →
  Forall2 holds_turn (xs ++ [turn (user_input st) bot]) pairs →
  backend (trace w ++ [respond_call (user_input st)])
          (summary_call (map pair_line pairs)) = inl e →
  ∃ w',
    update_state backend state w = (Raise e, w') ∧
    view w' state =
      Some (with_messages st (xs ++ [turn (user_input st) bot])) ∧
    trace w' =
      trace w ++ [respond_call (user_input st);
                  summary_call (map pair_line pairs)].
Proof.
  intros Hst Hxs (r & m & Hr & Hm & Hc) Hmod Hpairs He.
  apply holds_turn_lines in Hpairs.
  unfold update_state. rewrite run_bind, chatbot_response_run, Hst.
  cbv zeta. unfold respond_call in Hr. rewrite Hr, Hm, Hc, Hxs.
  rewrite (run_get_obj _ (with_sentiment st (analyze_sentiment (user_input st))))
    by apply lookup_insert_eq.
  rewrite (run_get_list _ (xs ++ [turn (user_input st) bot]))
    by apply lookup_insert_eq.
  apply Nat.eqb_eq in Hmod. rewrite Hmod.
  rewrite run_bind, summarize_conversation_run.
  cbn [objs lists trace]. rewrite lookup_insert_eq.
  cbn [with_sentiment messages]. rewrite lookup_insert_eq, Hpairs.
  cbv zeta. unfold summary_call, respond_call in He. rewrite He.
  eexists. split; [reflexivity|]. split.
  - unfold view. cbn [set_trace objs lists].
    rewrite lookup_insert_ne
      by (intros Heq; rewrite <- Heq, lookup_fresh in Hst; done).
    rewrite Hst. cbn [mbind option_bind]. by rewrite lookup_insert_eq.
  - cbn [set_trace trace]. by rewrite <- app_assoc.
Qed.

Lemma summary_failure_after_append_witness :
  ∃ w',
    update_state flaky 0%nat (one_state four_turns "e") =
      (Raise TimeoutError, w') ∧
    view w' 0%nat =
      Some (with_messages (MkState 0%nat "neutral" "" "" "e")
              (four_turns ++ [turn "e" "ok"])) ∧
    trace w' =
      [] ++ [respond_call "e";
             summary_call (map pair_line
               [("a", "1"); ("b", "2"); ("c", "3"); ("d", "4"); ("e", "ok")])].
Proof.
  apply (summary_failure_after_append flaky 0%nat (one_state four_turns "e")
           (MkState 0%nat "neutral" "" "" "e") four_turns "ok"
           [("a", "1"); ("b", "2"); ("c", "3"); ("d", "4"); ("e", "ok")]
           TimeoutError).
  - vm_compute; reflexivity.
  - vm_compute; reflexivity.
  - eexists _, _. split_and!; [reflexivity | |]; vm_compute; reflexivity.
  - reflexivity.
  - repeat constructor.
  - reflexivity.
Defined.

(** X10. A run of the loop over N lines that succeeds has made N
    respond requests and one summary request for every fifth turn:
    N + N / 5 requests in all. *)
Theorem main_request_count backend inputs s' w' :
  main backend inputs empty_world = (Ok s', w') →
  length (trace w') = (length inputs + length inputs / 5)%nat.
Proof.
  intros Hrun.
  by destruct (main_invariant _ _ _ _ Hrun) as (after & _ & _ & Htr & _).
Qed.

Lemma main_request_count_witness :
  ∃ s' w',
    main parrot ["a"; "b"; "c"; "d"; "e"; "f"] empty_world = (Ok s', w') ∧
    length (trace w') = (6 + 6 / 5)%nat.
Proof.
  pose (r := main parrot ["a"; "b"; "c"; "d"; "e"; "f"] empty_world).
  exists (match r.1 with Ok s => s | _ => 0%nat end), r.2.
  split; [vm_compute; reflexivity|].
  apply (main_request_count parrot ["a"; "b"; "c"; "d"; "e"; "f"]
           (match r.1 with Ok s => s | _ => 0%nat end) r.2).
  vm_compute; reflexivity.
Defined.

(** X11. After a successful run of the loop, the sentiment of the held
    state is the label of the last line read, and its [user_input] is
    that line. *)
Theorem main_sentiment_of_last_input backend inputs text s' w' :
  last inputs = Some text →
  main backend inputs empty_world = (Ok s', w') →
  ∃ after,
    view w' s' = Some after ∧
    sentiment after = analyze_sentiment text ∧
    user_input after = text.
Proof.
  intros Hlast Hrun.
  destruct (main_invariant _ _ _ _ Hrun) as (after & Ha & _ & _ & _ & Hl).
  exists after. split; [done|]. by apply Hl.
Qed.

Lemma main_sentiment_of_last_input_witness :
  ∃ s' w',
    last ["I am sad"; "now HAPPY"] = Some "now HAPPY" ∧
    main parrot ["I am sad"; "now HAPPY"] empty_world = (Ok s', w') ∧
    ∃ after,
      view w' s' = Some after ∧
      sentiment after = analyze_sentiment "now HAPPY" ∧
      user_input after = "now HAPPY".
Proof.
  pose (r := main parrot ["I am sad"; "now HAPPY"] empty_world).
  exists (match r.1 with Ok s => s | _ => 0%nat end), r.2.
  split; [reflexivity|]. split; [vm_compute; reflexivity|].
  apply (main_sentiment_of_last_input parrot ["I am sad"; "now HAPPY"]);
    [reflexivity | vm_compute; reflexivity].
Defined.

(** X12. While fewer than five lines have been processed, the summary
    of the held state is still the empty default. *)
Theorem main_summary_empty_before_fifth backend inputs s' w' :
  (length inputs < 5)%nat →
  main backend inputs empty_world = (Ok s', w') →
  ∃ after, view w' s' = Some after ∧ summary after = "".
Proof.
  intros Hlt Hrun.
  destruct (main_invariant _ _ _ _ Hrun) as (after & Ha & _ & _ & Hs & _).
  exists after. split; [done|]. by apply Hs.
Qed.

Lemma main_summary_empty_before_fifth_witness :
  ∃ s' w',
    (length ["a"; "b"; "c"; "d"] < 5)%nat ∧
    main parrot ["a"; "b"; "c"; "d"] empty_world = (Ok s', w') ∧
    ∃ after, view w' s' = Some after ∧ summary after = "".
Proof.
  pose (r := main parrot ["a"; "b"; "c"; "d"] empty_world).
  exists (match r.1 with Ok s => s | _ => 0%nat end), r.2.
  split; [simpl; lia|]. split; [vm_compute; reflexivity|].
  apply (main_summary_empty_before_fifth parrot ["a"; "b"; "c"; "d"]);
    [simpl; lia | vm_compute; reflexivity].
Defined.

(** X13. When the response to the respond request lacks its "message"
    entry, the step and [update_state] raise [KeyError] "message"; when
    it has the message and the message lacks its "content" entry, they
    raise [KeyError] "content". In both cases no list has changed, so no
    turn was appended, and the caller's instance is as before. *)
Theorem malformed_response_appends_nothing backend state w st r :
  objs w !! state = Some st →
  backend (trace w) (respond_call (user_input st)) = inr r →
  (r !! "message" = None →
   ∃ w',
     chatbot_response backend state w = (Raise (KeyError "message"), w') ∧
     update_state backend state w = (Raise (KeyError "message"), w') ∧
     lists w' = lists w ∧
     objs w' !! state = Some st) ∧
  (∀ m, r !! "message" = Some m → m !! "content" = None →
   ∃ w',
     chatbot_response backend state w = (Raise (KeyError "content"), w') ∧
     update_state backend state w = (Raise (KeyError "content"), w') ∧
     lists w' = lists w ∧
     objs w' !! state = Some st).
Proof.
  intros Hst Hr. unfold respond_call in Hr.
  assert (state ≠ fresh (dom (objs w))) as Hne.
  { intros Heq. rewrite Heq, lookup_fresh in Hst. done. }
  split.
  - intros Hm.
    assert (∃ w', chatbot_response backend state w =
                  (Raise (KeyError "message"), w') ∧
                  lists w' = lists w ∧ objs w' !! state = Some st)
      as (w' & Hrun & Hl & Ho).
    { rewrite chatbot_response_run, Hst. cbv zeta. rewrite Hr, Hm.
      eexists. split_and!; [done | done |].
      cbn [objs]. by rewrite lookup_insert_ne. }
    exists w'. split_and!; try done.
    unfold update_state. rewrite run_bind. by rewrite Hrun.
  - intros m Hm Hc.
    assert (∃ w', chatbot_response backend state w =
                  (Raise (KeyError "content"), w') ∧
                  lists w' = lists w ∧ objs w' !! state = Some st)
      as (w' & Hrun & Hl & Ho).
    { rewrite chatbot_response_run, Hst. cbv zeta. rewrite Hr, Hm, Hc.
      eexists. split_and!; [done | done |].
      cbn [objs]. by rewrite lookup_insert_ne. }
    exists w'. split_and!; try done.
    unfold update_state. rewrite run_bind. by rewrite Hrun.
Qed.

Lemma malformed_response_appends_nothing_witness :
  (∃ w',
     chatbot_response garbled 0%nat (one_state four_turns "e") =
       (Raise (KeyError "message"), w') ∧
     update_state garbled 0%nat (one_state four_turns "e") =
       (Raise (KeyError "message"), w') ∧
     lists w' = lists (one_state four_turns "e") ∧
     objs w' !! 0%nat = Some (MkState 0%nat "neutral" "" "" "e")) ∧
  (∃ w',
     chatbot_response headless 0%nat (one_state four_turns "e") =
       (Raise (KeyError "content"), w') ∧
     update_state headless 0%nat (one_state four_turns "e") =
       (Raise (KeyError "content"), w') ∧
     lists w' = lists (one_state four_turns "e") ∧
     objs w' !! 0%nat = Some (MkState 0%nat "neutral" "" "" "e")).
Proof.
  split.
  - apply (proj1 (malformed_response_appends_nothing garbled 0%nat
             (one_state four_turns "e") (MkState 0%nat "neutral" "" "" "e") ∅
             ltac:(vm_compute; reflexivity) eq_refl)).
    reflexivity.
  - apply (proj2 (malformed_response_appends_nothing headless 0%nat
             (one_state four_turns "e") (MkState 0%nat "neutral" "" "" "e")
             {[ "message" := {[ "role" := "assistant" ]} ]}
             ltac:(vm_compute; reflexivity) eq_refl)
             {[ "role" := "assistant" ]});
      vm_compute; reflexivity.
Defined.

(** X14. On a successful step that reaches a multiple of five turns, the
    summary request covers every turn of the returned state, the one
    just appended included, and the returned summary is the text
    answered to it. *)
Theorem fifth_turn_summary_covers_new_turn backend state w s' w' after :
  update_state backend state w = (Ok s', w') →
  view w' s' = Some after →
  (length (messages after) mod 5 = 0)%nat →
  ∃ pairs call,
    Forall2 holds_turn (messages after) pairs ∧
    call = ChatCall "llama3"
             [user_message ("Summarize this conversation: " +:+
                            PyStr.join newline (map pair_line pairs))] ∧
    last (trace w') = Some call ∧
    answered backend (removelast (trace w')) call (summary after).
Proof.
  intros Hrun Ha Hmod.
  destruct (update_state_view _ _ _ _ _ Hrun)
    as (before & bot & sum & _ & _ & Ha' & Hsum & _).
  cbv zeta in *. rewrite Ha in Ha'. injection Ha' as ->.
  cbn [messages summary] in *.
  apply Nat.eqb_eq in Hmod. rewrite Hmod in Hsum.
  destruct Hsum as (texts & Hlines & Hans & Htr).
  destruct (turn_lines_pairs _ _ Hlines) as (pairs & Hall & ->).
  exists pairs, (summary_call (map pair_line pairs)).
  split_and!; [done | done | |].
  - rewrite Htr.
    change [respond_call (user_input before);
            summary_call (map pair_line pairs)]
      with ([respond_call (user_input before)] ++
            [summary_call (map pair_line pairs)]).
    by rewrite app_assoc, last_snoc.
  - rewrite Htr.
    change [respond_call (user_input before);
            summary_call (map pair_line pairs)]
      with ([respond_call (user_input before)] ++
            [summary_call (map pair_line pairs)]).
    by rewrite app_assoc, removelast_last.
Qed.

Lemma fifth_turn_summary_covers_new_turn_witness :
  ∃ s' w' after,
    update_state parrot 0%nat (one_state four_turns "e") = (Ok s', w') ∧
    view w' s' = Some after ∧
    (length (messages after) mod 5 = 0)%nat ∧
    ∃ pairs call,
      Forall2 holds_turn (messages after) pairs ∧
      call = ChatCall "llama3"
               [user_message ("Summarize this conversation: " +:+
                              PyStr.join newline (map pair_line pairs))] ∧
      last (trace w') = Some call ∧
      answered parrot (removelast (trace w')) call (summary after).
Proof.
  pose (r := update_state parrot 0%nat (one_state four_turns "e")).
  pose (s' := match r.1 with Ok s => s | _ => 0%nat end).
  exists s', r.2, (default defaults (view r.2 s')).
  split; [vm_compute; reflexivity|]. split; [vm_compute; reflexivity|].
  split; [vm_compute; reflexivity|].
  apply (fifth_turn_summary_covers_new_turn parrot 0%nat
           (one_state four_turns "e") s' r.2);
    vm_compute; reflexivity.
Defined.

(** C5 does not hold of the code. The caller holds a state with four
    turns and the pending line "e"; the service answers the respond
    request and times out on the summary request of this fifth turn.
    [update_state] raises that exception, as the claim says, but the
    caller's state is not what it was: it holds five turns. *)
Example summary_failure_mutates_callers_state :
  view (one_state four_turns "e") 0%nat =
    Some (MkState four_turns "neutral" "" "" "e") ∧
  ∃ w',
    update_state flaky 0%nat (one_state four_turns "e") =
      (Raise TimeoutError, w') ∧
    view w' 0%nat =
      Some (MkState (four_turns ++ [turn "e" "ok"]) "neutral" "" "" "e") ∧
    (∃ before after,
       view (one_state four_turns "e") 0%nat = Some before ∧
       view w' 0%nat = Some after ∧
       length (messages before) = 4%nat ∧
       length (messages after) = 5%nat).
Proof.
  split; [vm_compute; reflexivity|].
  eexists. split; [vm_compute; reflexivity|].
  split; [vm_compute; reflexivity|].
  eexists _, _.
  split; [vm_compute; reflexivity|]. split; [vm_compute; reflexivity|].
  split; reflexivity.
Qed.
